(** * The two-diode junction model

    A shallow embedding of [solcore/junctions/two_diode_junction.py]:
    the parameter record [TwoDiodeData], the junction facade
    [TwoDiodeJunction] with [from_reference], [solve_iv], [solve_qe],
    [solve_equilibrium], [solve_short_circuit] and [_get_jsc], and the
    two solver functions [iv_no_rs] and [iv2diode].

    Numbers.  A Python [float] / numpy [float64] is read as a real
    number: the development reasons about the exact arithmetic the
    formulas denote.  Rounding, overflow and the IEEE special values
    ([inf], [nan]) are outside this reading.  What Python makes visible
    as control flow is kept: a scalar division by zero raises, [None]
    in arithmetic raises, a reduction of an empty array raises.

    Arrays.  A one-dimensional [np.ndarray] is a [list R]; vectorised
    expressions act element by element.

    Where rounding decides a property, the computation is given a
    second time over binary64 numbers (module [F64]) and evaluated. *)

From Stdlib Require Import PrimFloat.
From Stdlib Require Import Reals Lra Ascii Sorted.
From stdpp Require Import gmap strings list.

Open Scope R_scope.

(** ** Python: outcomes of a call, objects stored in mappings *)

Module Py.

Inductive exn : Type :=
| TypeError
| ValueError
| ZeroDivisionError
| AttributeError
| NotImplementedError
| RuntimeError (msg : string).

(** A call either returns a value or raises. *)
Inductive result (A : Type) : Type :=
| Ok (a : A)
| Raise (e : exn).
Global Arguments Ok {A} a.
Global Arguments Raise {A} e.

Global Instance result_ret : MRet result := fun A a => Ok a.
Global Instance result_bind : MBind result :=
  fun A B f m => match m with Ok a => f a | Raise e => Raise e end.

(** [a == b] on floats. *)
Definition float_eq (a b : R) : bool :=
  if Req_dec_T a b then true else false.

(** [a / b] on Python floats: a zero divisor raises. *)
Definition truediv (a b : R) : result R :=
  if float_eq b 0 then Raise ZeroDivisionError else Ok (a / b).

(** The values the mappings of this module carry. *)
Inductive obj : Type :=
| Float (r : R)
| Int (z : Z)
| Bool (b : bool)
| Str (s : string).

(** A [Mapping] is a [dict] with string keys or a
    [collections.ChainMap] over a list of mappings. *)
#[warnings="-register-all"]
Inductive Mapping : Type :=
| Dict (d : gmap string obj)
| ChainMap (maps : list Mapping).

(** [m.get(key)]: a [ChainMap] searches its maps from the first to the
    last and answers with the first hit. *)
Fixpoint get (key : string) (m : Mapping) : option obj :=
  match m with
  | Dict d => d !! key
  | ChainMap maps =>
      (fix search (ms : list Mapping) : option obj :=
         match ms with
         | [] => None
         | m' :: rest =>
             match get key m' with
             | Some v => Some v
             | None => search rest
             end
         end) maps
  end.

(** The keyword arguments [**m] expands to: every key of [m] with the
    value [m[key]]. *)
Fixpoint items (m : Mapping) : gmap string obj :=
  match m with
  | Dict d => d
  | ChainMap maps =>
      (fix collect (ms : list Mapping) : gmap string obj :=
         match ms with
         | [] => ∅
         | m' :: rest => items m' ∪ collect rest
         end) maps
  end.

(** [**o] for an optional mapping: [None] is not a mapping. *)
Definition expand (o : option Mapping) : result (gmap string obj) :=
  match o with
  | Some m => Ok (items m)
  | None => Raise TypeError
  end.

End Py.

Import Py.

(** ** numpy: the array operations the module uses *)

Abbreviation ndarray := (list R).

Module np.

(** [np.exp(a)] *)
Definition exp (a : ndarray) : ndarray := map Rtrigo_def.exp a.

(** [np.min(a)], [np.max(a)]: an empty array has no minimum. *)
Definition min (a : ndarray) : result R :=
  match a with
  | [] => Raise ValueError
  | a0 :: rest => Ok (foldl Rmin a0 rest)
  end.

Definition max (a : ndarray) : result R :=
  match a with
  | [] => Raise ValueError
  | a0 :: rest => Ok (foldl Rmax a0 rest)
  end.

(** [np.clip(a, lo, hi)] is [minimum(maximum(a, lo), hi)]. *)
Definition clip (a : ndarray) (lo hi : R) : ndarray :=
  map (fun ai => Rmin (Rmax ai lo) hi) a.

(** A binary operator on two one-dimensional arrays: equal lengths
    pair up, a length-one array is stretched, anything else cannot be
    broadcast. *)
Definition broadcast (op : R -> R -> R) (a b : ndarray) : result ndarray :=
  if Nat.eqb (length a) (length b) then Ok (zip_with op a b)
  else match a, b with
       | [a0], _ => Ok (map (op a0) b)
       | _, [b0] => Ok (map (fun ai => op ai b0) a)
       | _, _ => Raise ValueError
       end.

(** [np.sum(a)]: starting from the identity 0, the items are added
    from left to right. *)
Definition sum (a : ndarray) : R := foldl Rplus 0 a.

End np.

(** ** xarray: labelled arrays and datasets *)

Module xr.

(** A one-dimensional [DataArray]: the name of its dimension, the
    coordinate along it and the values. *)
Record DataArray : Type := mkDataArray {
  dim : string;
  coords : ndarray;
  values : ndarray;
}.

(** [xr.DataArray(values, dims=[dim], coords={dim: coords})]: the
    values must have the length of the coordinate. *)
Definition new (vals : ndarray) (d : string) (c : ndarray) : result DataArray :=
  if Nat.eqb (length vals) (length c)
  then Ok {| dim := d; coords := c; values := vals |}
  else Raise ValueError.

(** A [Dataset]: named data variables and a flat attribute mapping. *)
Record Dataset : Type := mkDataset {
  data_vars : gmap string DataArray;
  attrs : gmap string R;
}.

(** The trapezoidal rule behind [DataArray.integrate]:
    [sum((x[1:] - x[:-1]) * 0.5 * (y[1:] + y[:-1]))]. *)
Definition trapz (y x : ndarray) : R :=
  let dx := zip_with Rminus (tail x) x in
  let ys := zip_with Rplus (tail y) y in
  np.sum (zip_with (fun d s => d * 0.5 * s) dx ys).

(** [a.integrate(dim)] for a one-dimensional array. *)
Definition integrate (a : DataArray) : R := trapz (values a) (coords a).

(** [a * b] for two arrays over the same coordinate. *)
Definition mul (a b : DataArray) : DataArray :=
  {| dim := dim a; coords := coords a;
     values := zip_with Rmult (values a) (values b) |}.

(** [xr.ones_like(a)] *)
Definition ones_like (a : DataArray) : DataArray :=
  {| dim := dim a; coords := coords a; values := map (fun _ => 1) (values a) |}.

End xr.

(** The absorption input: the absorbed fraction as a function of
    'wavelength' and 'position', one row of [absorbed] per wavelength. *)
Record Absorption : Type := mkAbsorption {
  wavelength : ndarray;
  position : ndarray;
  absorbed : list ndarray;
}.

(** [absorption.integrate("position")]: each wavelength's row is
    integrated over the position coordinate. *)
Definition integrate_position (a : Absorption) : xr.DataArray :=
  {| xr.dim := "wavelength";
     xr.coords := wavelength a;
     xr.values := map (fun row => xr.trapz row (position a)) (absorbed a) |}.

(** The light-source collaborator.  Its query
    [spectrum(wavelengths, output_units="photon_flux_per_m")] answers
    with one photon flux density per requested wavelength; it is
    represented by the density it samples. *)
Record LightSource : Type := mkLightSource {
  photon_flux_per_m : R -> R;
}.

Definition spectrum (ls : LightSource) (wl : ndarray) : ndarray :=
  map (photon_flux_per_m ls) wl.

(** ** scipy.optimize: the result object of [root] *)

Record OptimizeResult : Type := mkOptimizeResult {
  x : ndarray;
  success : bool;
  status : Z;
  message : string;
}.

(** ** The parameter record *)

(** [TwoDiodeData]: the parameters of a two-diode equation.  [jsc] is
    optional; when given it replaces the current derived from the
    absorption and the spectrum. *)
Record TwoDiodeData : Type := mkTwoDiodeData {
  t : R;
  j01 : R;
  j02 : R;
  n1 : R;
  n2 : R;
  rs : R;
  rsh : R;
  jsc : option R;
}.

(** [TwoDiodeData()] *)
Definition TwoDiodeData_default : TwoDiodeData :=
  {| t := 297; j01 := 1e-6; j02 := 0; n1 := 1; n2 := 2;
     rs := 0; rsh := 1e14; jsc := None |}.

(** [data._replace(jsc=jsc)] *)
Definition replace_jsc (d : TwoDiodeData) (jsc' : option R) : TwoDiodeData :=
  {| t := t d; j01 := j01 d; j02 := j02 d; n1 := n1 d; n2 := n2 d;
     rs := rs d; rsh := rsh d; jsc := jsc' |}.

(** [data._replace(t=t, j01=j01, j02=j02)] *)
Definition replace_t_j01_j02 (d : TwoDiodeData) (t' j01' j02' : R) : TwoDiodeData :=
  {| t := t'; j01 := j01'; j02 := j02'; n1 := n1 d; n2 := n2 d;
     rs := rs d; rsh := rsh d; jsc := jsc d |}.

(** ** The junction *)

Record TwoDiodeJunction : Type := mkTwoDiodeJunction {
  data : TwoDiodeData;
  params : option Mapping;
  options : option Mapping;
}.

(** [TwoDiodeJunction()] *)
Definition TwoDiodeJunction_default : TwoDiodeJunction :=
  {| data := TwoDiodeData_default; params := None; options := None |}.

(** ** What the module imports from the rest of the package *)

(** [from ..constants import q, kb]: the elementary charge and the
    Boltzmann constant. *)
Class Constants : Type := {
  q : R;
  kb : R;
}.

(** [from scipy.optimize import root]: the root finder takes the
    residual function, the starting point and the keyword options and
    answers with an [OptimizeResult] (or raises); [sol_str] is the text
    Python prints for such a result. *)
Class RootFinder : Type := {
  root : (ndarray -> result ndarray) -> ndarray -> gmap string obj ->
         result OptimizeResult;
  sol_str : OptimizeResult -> string;
}.

(** [from ..junction_base import JunctionBase]: the base class supplies
    [iv_parameters(voltage, current)], the curve parameters (Voc, Isc,
    FF, Vmpp, Impp, Pmpp, eta) of a light IV curve. *)
Class JunctionBase (J : Type) : Type := {
  iv_parameters : J -> ndarray -> ndarray -> result (gmap string R);
}.

(** ** The solver functions and the methods of the junction *)

Section TwoDiode.

Context {consts : Constants} {finder : RootFinder}
        {base : JunctionBase TwoDiodeJunction}.

(** The two-diode equation at one voltage sample [vk], as [iv_no_rs]
    writes it, with the short-circuit current [jsc_] already taken out
    of its option. *)
Definition two_diode_equation (data : TwoDiodeData) (jsc_ vk : R) : R :=
  j01 data * (exp (q * vk / (n1 data * kb * t data)) - 1)
  + j02 data * (exp (q * vk / (n2 data * kb * t data)) - 1)
  + vk / rsh data
  - jsc_.

(** [iv_no_rs(v, data)].  Every operand of the vectorised expression is
    derived from the one array [v], so the expression is the equation
    applied to each sample.  The scalars divide an array: numpy does not
    raise on a zero divisor there.  With [data.jsc] left at [None] the
    final subtraction meets [None]: it raises as soon as there is a
    sample to subtract from, and produces the empty array otherwise. *)
Definition iv_no_rs (v : ndarray) (data : TwoDiodeData) : result ndarray :=
  match jsc data with
  | Some jsc_ => Ok (map (two_diode_equation data jsc_) v)
  | None => match v with
            | [] => Ok []
            | _ :: _ => Raise TypeError
            end
  end.

(** The closure [fun] of [iv2diode]:
    [j - iv_no_rs(v - data.rs * j, data)]. *)
Definition iv2diode_fun (v : ndarray) (data : TwoDiodeData) (j : ndarray)
  : result ndarray :=
  arg ← np.broadcast Rminus v (map (Rmult (rs data)) j);
  i ← iv_no_rs arg data;
  np.broadcast Rminus j i.

(** The text of the error [iv2diode] raises on a failed solve; the
    f-string puts a line break before the solver's report. *)
Definition convergence_msg (sol : OptimizeResult) : string :=
  "The IV calculation failed to converge. Solver info:"
  +:+ String "010"%char EmptyString +:+ sol_str sol.

(** [iv2diode(v, data, **kwargs)] *)
Definition iv2diode (v : ndarray) (data : TwoDiodeData)
    (kwargs : gmap string obj) : result ndarray :=
  current ← iv_no_rs v data;
  if float_eq (rs data) 0 then Ok current
  else
    lo ← np.min v;
    hi ← np.max v;
    let jguess := np.clip current (lo / rs data) (hi / rs data) in
    sol ← root (iv2diode_fun v data) jguess kwargs;
    if negb (success sol) then Raise (RuntimeError (convergence_msg sol))
    else Ok (x sol).

(** The call [iv2diode(voltage, data, **kwargs)] as [solve_iv] makes
    it: a keyword that names one of the two positional parameters is
    rejected before the body runs. *)
Definition call_iv2diode (voltage : ndarray) (d : TwoDiodeData)
    (kwargs : gmap string obj) : result ndarray :=
  if decide (is_Some (kwargs !! "v") ∨ is_Some (kwargs !! "data"))
  then Raise TypeError
  else iv2diode voltage d kwargs.

(** [TwoDiodeJunction.from_reference(band_gap, t, data, params, options)].
    The target temperature is called [t_new] here, [t] being the field.
    All four quotients are between Python floats, as the arguments and
    fields are annotated (numpy scalars in their place would divide by
    zero with a warning instead of raising).  [(t / data.t) ** 3]
    has an integer exponent; [** (5.0 / 3.0)] is the real power, which
    is a real number for a positive ratio only (Python answers with a
    complex number for a negative one, and a zero ratio means [1 / t]
    raises). *)
Definition from_reference (band_gap t_new : R) (data : TwoDiodeData)
    (params options : option Mapping) : result TwoDiodeJunction :=
  ratio ← truediv t_new (t data);
  c1 ← truediv (- q * band_gap) (n1 data * kb);
  inv_t ← truediv 1 t_new;
  inv_ref ← truediv 1 (t data);
  let j01' := j01 data * ratio ^ 3 * exp (c1 * (inv_t - inv_ref)) in
  ratio' ← truediv t_new (t data);
  c2 ← truediv (- q * band_gap) (n2 data * kb);
  inv_t' ← truediv 1 t_new;
  inv_ref' ← truediv 1 (t data);
  let j02' := j02 data * Rpower ratio' (5 / 3) * exp (c2 * (inv_t' - inv_ref')) in
  let parameters :=
    ChainMap [ Dict {[ "band_gap" := Float band_gap; "t_ref" := Float (t data) ]};
               match params with Some p => p | None => Dict ∅ end ] in
  Ok {| data := replace_t_j01_j02 data t_new j01' j02';
        params := Some parameters;
        options := options |}.

(** [self.solve_qe(absorption, light_source)] *)
Definition solve_qe (self : TwoDiodeJunction) (absorption : Absorption)
    (light_source : option LightSource) : result xr.Dataset :=
  let eqe := integrate_position absorption in
  let iqe := xr.ones_like eqe in
  Ok {| xr.data_vars := {[ "eqe" := eqe; "iqe" := iqe ]}; xr.attrs := ∅ |}.

(** [self.solve_equilibrium()] *)
Definition solve_equilibrium (self : TwoDiodeJunction) : result xr.Dataset :=
  Raise NotImplementedError.

(** [self.solve_short_circuit(absorption, light_source)] *)
Definition solve_short_circuit (self : TwoDiodeJunction)
    (absorption : Absorption) (light_source : LightSource) : result xr.Dataset :=
  Raise NotImplementedError.

(** [ds.name]: a data variable read as an attribute of the dataset. *)
Definition getattr (ds : xr.Dataset) (name : string) : result xr.DataArray :=
  match xr.data_vars ds !! name with
  | Some a => Ok a
  | None => Raise AttributeError
  end.

(** [self._get_jsc(absorption, light_source)].  In the dark the result
    is the Python float [0.0].  Under light it is what [integrate]
    hands back, a dimensionless (0-d) [DataArray]; the real number
    given here is the value that array holds, and [jsc_is_array] below
    records which of the two kinds of object it is. *)
Definition _get_jsc (self : TwoDiodeJunction) (absorption : option Absorption)
    (light_source : option LightSource) : result R :=
  match absorption, light_source with
  | Some a, Some ls =>
      sp ← xr.new (spectrum ls (wavelength a)) "wavelength" (wavelength a);
      ds ← solve_qe self a None;
      eqe ← getattr ds "eqe";
      Ok (q * xr.integrate (xr.mul eqe sp))
  | _, _ => Ok 0
  end.

(** Whether the short-circuit current [solve_iv] works with is a 0-d
    [DataArray] rather than a float: it is when nothing is stored in
    [data.jsc] and [_get_jsc] got past its dark test. *)
Definition jsc_is_array (self : TwoDiodeJunction) (absorption : option Absorption)
    (light_source : option LightSource) : bool :=
  match jsc (data self), absorption, light_source with
  | None, Some _, Some _ => true
  | _, _, _ => false
  end.

(** The call [iv2diode(voltage, data, **kwargs)] when [data.jsc] is a
    0-d [DataArray].  The keywords are bound as in [call_iv2diode];
    then the first statement of the body, [iv_no_rs], ends in
    [array - data.jsc], a one-dimensional array against a dimensionless
    [DataArray], which xarray refuses with [ValueError]. *)
Definition call_iv2diode_array_jsc (kwargs : gmap string obj) : result ndarray :=
  if decide (is_Some (kwargs !! "v") ∨ is_Some (kwargs !! "data"))
  then Raise TypeError
  else Raise ValueError.

(** [self.solve_iv(voltage, absorption, light_source)] *)
Definition solve_iv (self : TwoDiodeJunction) (voltage : ndarray)
    (absorption : option Absorption) (light_source : option LightSource)
  : result xr.Dataset :=
  jsc_ ← match jsc (data self) with
         | Some j => Ok j
         | None => _get_jsc self absorption light_source
         end;
  kwargs ← expand (options self);
  i ← (if jsc_is_array self absorption light_source
       then call_iv2diode_array_jsc kwargs
       else call_iv2diode voltage (replace_jsc (data self) (Some jsc_)) kwargs);
  current ← xr.new i "voltage" voltage;
  parameters ← (if float_eq jsc_ 0 then Ok ∅
                else iv_parameters self voltage (xr.values current));
  Ok {| xr.data_vars := {[ "current" := current ]}; xr.attrs := parameters |}.

End TwoDiode.

(** ** The contract of the root finder

    [iv2diode] treats [scipy.optimize.root] as an opaque solver.  The
    residual law is stated against the following reading of a reported
    success: the solution has the shape of the starting point and the
    residual function, evaluated there, is within the tolerance [tol]
    that the keyword options select. *)
Definition root_contract `{!RootFinder} (tol : gmap string obj -> R) : Prop :=
  forall (f : ndarray -> result ndarray) (x0 : ndarray)
         (kwargs : gmap string obj) (sol : OptimizeResult),
    root f x0 kwargs = Ok sol ->
    success sol = true ->
    length (x sol) = length x0 /\
    exists r, f (x sol) = Ok r /\ Forall (fun ri => Rabs ri <= tol kwargs) r.

(** ** The metadata of a derived junction *)

(** The mapping [from_reference] records on the new junction. *)
Definition reference_parameters (band_gap : R) (data : TwoDiodeData)
    (params : option Mapping) : Mapping :=
  ChainMap [ Dict {[ "band_gap" := Float band_gap; "t_ref" := Float (t data) ]};
             match params with Some p => p | None => Dict ∅ end ].

(** ** The integral over position, in the words of the specification

    The quantum efficiency is specified as the integral of the absorbed
    fraction over position.  For samples [y] at the coordinates [x]
    that integral is made of the trapezoids between neighbouring
    samples, [(x[i+1] - x[i]) * 0.5 * (y[i+1] + y[i])], listed here in
    the order of the coordinate.  [solve_qe] is compared with their
    sum below. *)
Fixpoint trapezoids (x y : ndarray) : list R :=
  match x, y with
  | x0 :: xs, y0 :: ys =>
      match xs, ys with
      | x1 :: _, y1 :: _ => (x1 - x0) * 0.5 * (y1 + y0) :: trapezoids xs ys
      | _, _ => []
      end
  | _, _ => []
  end.

(** Half the width of every interval of the coordinate [x], in the
    order of the coordinate. *)
Fixpoint half_widths (x : ndarray) : list R :=
  match x with
  | x0 :: xs =>
      match xs with
      | x1 :: _ => (x1 - x0) * 0.5 :: half_widths xs
      | [] => []
      end
  | [] => []
  end.

(** ** The integration of [solve_qe] over binary64

    The same operations as [xr.trapz] and [integrate_position], on
    binary64 numbers with their rounding. *)

Module F64.

(** [np.sum(a)] *)
Definition sum (a : list float) : float := foldl PrimFloat.add 0%float a.

(** The trapezoidal rule of [DataArray.integrate]. *)
Definition trapz (y x : list float) : float :=
  let dx := zip_with PrimFloat.sub (tail x) x in
  let ys := zip_with PrimFloat.add (tail y) y in
  sum (zip_with (fun d s => (d * 0x1p-1 * s)%float) dx ys).

(** The values of 'eqe' that [solve_qe] returns for an absorption with
    the given position coordinate and rows of absorbed fractions. *)
Definition eqe (position : list float) (absorbed : list (list float))
  : list float :=
  map (fun row => trapz row position) absorbed.

End F64.

(** ** Concrete collaborators, to run the model on sample inputs *)

(** The CODATA values of the two constants. *)
Definition SI : Constants :=
  {| q := 1.602176634e-19; kb := 1.380649e-23 |}.

(** A root finder that takes no step: it evaluates the residual at the
    starting point and reports success exactly when every component is
    already zero. *)
Definition stay_put : RootFinder :=
  {| root := fun f x0 _ =>
       r ← f x0;
       let ok := forallb (fun ri => float_eq ri 0) r in
       Ok {| x := x0; success := ok; status := if ok then 1%Z else 5%Z;
             message := if ok then "The solution converged."
                        else "The iteration is not making good progress." |};
     sol_str := message |}.

(** A base class whose curve parameters are the current at the first
    sample ("Isc") and nothing else. *)
Definition first_sample_base : JunctionBase TwoDiodeJunction :=
  {| iv_parameters := fun _ _ current =>
       Ok {[ "Isc" := hd 0 current ]} |}.

(** The parameter set of the end-to-end example: the defaults with a
    short-circuit current of 0.03 A. *)
Definition lit_cell : TwoDiodeData := replace_jsc TwoDiodeData_default (Some 0.03).

(** A cell with a series resistance of one ohm and no diode current,
    in the dark. *)
Definition ohmic_cell : TwoDiodeData :=
  {| t := 297; j01 := 0; j02 := 0; n1 := 1; n2 := 2;
     rs := 1; rsh := 1; jsc := Some 0 |}.

(** A default junction given an empty options mapping. *)
Definition dark_junction : TwoDiodeJunction :=
  {| data := TwoDiodeData_default; params := None; options := Some (Dict ∅) |}.

(** The lit example cell behind the same facade. *)
Definition lit_junction : TwoDiodeJunction :=
  {| data := lit_cell; params := None; options := Some (Dict ∅) |}.

(** An absorption profile: two wavelengths, three positions spanning a
    width of 4, absorbed fraction 0.5 everywhere. *)
Definition half_absorber : Absorption :=
  {| wavelength := [400e-9; 500e-9];
     position := [0; 1; 4];
     absorbed := [[0.5; 0.5; 0.5]; [0.5; 0.5; 0.5]] |}.

(** The ohmic cell behind the facade. *)
Definition ohmic_junction : TwoDiodeJunction :=
  {| data := ohmic_cell; params := None; options := Some (Dict ∅) |}.

(** A junction whose options name the solver's first parameter. *)
Definition shadowing_junction : TwoDiodeJunction :=
  {| data := lit_cell; params := None;
     options := Some (Dict {[ "v" := Float 1 ]}) |}.

(** The half absorber sampled at one wavelength only. *)
Definition one_colour : Absorption :=
  {| wavelength := [500e-9];
     position := [0; 1; 4];
     absorbed := [[0.5; 0.5; 0.5]] |}.

(** The half absorber sampled at one position only. *)
Definition one_layer : Absorption :=
  {| wavelength := [400e-9; 500e-9];
     position := [0];
     absorbed := [[0.5]; [0.5]] |}.

(** A light source with the same photon flux at every wavelength. *)
Definition flat_light (flux : R) : LightSource :=
  {| photon_flux_per_m := fun _ => flux |}.

(** * Properties *)

(** ** Basic facts about the Python layer *)

Lemma float_eq_true (a b : R) : float_eq a b = true <-> a = b.
Proof. unfold float_eq. destruct (Req_dec_T a b); split; congruence. Qed.

Lemma float_eq_false (a b : R) : float_eq a b = false <-> a <> b.
Proof. unfold float_eq. destruct (Req_dec_T a b); split; congruence. Qed.

Lemma float_eq_refl (a : R) : float_eq a a = true.
Proof. by apply float_eq_true. Qed.

Lemma truediv_ok (a b : R) : b <> 0 -> truediv a b = Ok (a / b).
Proof. intros Hb. unfold truediv. by rewrite (proj2 (float_eq_false b 0) Hb). Qed.

Lemma truediv_zero (a : R) : truediv a 0 = Raise ZeroDivisionError.
Proof. unfold truediv. by rewrite float_eq_refl. Qed.

Lemma bind_ok {A B : Type} (m : result A) (k : A -> result B) (b : B) :
  m ≫= k = Ok b -> exists a, m = Ok a /\ k a = Ok b.
Proof. destruct m as [a|e]; [eauto | discriminate]. Qed.

Ltac run := unfold mbind, result_bind, mret, result_ret; simpl.

Section Properties.

Context {consts : Constants} {finder : RootFinder}
        {base : JunctionBase TwoDiodeJunction}.

(** ** The explicit evaluator and the fast path of the solver *)

Lemma iv_no_rs_some (v : ndarray) (data : TwoDiodeData) (jsc_ : R) :
  jsc data = Some jsc_ ->
  iv_no_rs v data = Ok (map (two_diode_equation data jsc_) v).
Proof. intros Hj. unfold iv_no_rs. by rewrite Hj. Qed.

Lemma iv_no_rs_length (v current : ndarray) (data : TwoDiodeData) :
  iv_no_rs v data = Ok current -> length current = length v.
Proof.
  unfold iv_no_rs. destruct (jsc data) as [j|].
  - intros [= <-]. apply length_map.
  - destruct v; [intros [= <-]; reflexivity | discriminate].
Qed.

(** With [rs = 0] the solver is the explicit evaluator. *)
Lemma iv2diode_fast_path (v : ndarray) (data : TwoDiodeData)
    (kwargs : gmap string obj) :
  rs data = 0 -> iv2diode v data kwargs = iv_no_rs v data.
Proof.
  intros Hrs. unfold iv2diode.
  destruct (iv_no_rs v data) as [current|e]; [|done]. run.
  by rewrite Hrs, float_eq_refl.
Qed.

(** At zero volts the diodes and the shunt carry nothing: the current
    is the short-circuit current, negated. *)
Lemma two_diode_equation_at_zero (data : TwoDiodeData) (jsc_ : R) :
  two_diode_equation data jsc_ 0 = - jsc_.
Proof.
  unfold two_diode_equation, Rdiv. rewrite !Rmult_0_r, !Rmult_0_l, exp_0. lra.
Qed.

(** C1.  With [rs = 0] and a numeric [jsc], [iv2diode] returns the
    array [iv_no_rs] returns: it has the length of [v], and its k-th
    element is the two-diode equation written out at [v[k]].  The root
    finder plays no part: the same array comes out whichever root
    finder is plugged in. *)
Theorem iv2diode_zero_rs (v : ndarray) (data : TwoDiodeData)
    (kwargs : gmap string obj) (jsc_ : R) :
  rs data = 0 ->
  jsc data = Some jsc_ ->
  exists current : ndarray,
    (forall solver : RootFinder,
        @iv2diode _ solver v data kwargs = Ok current) /\
    iv_no_rs v data = Ok current /\
    length current = length v /\
    forall (k : nat) (vk : R),
      v !! k = Some vk ->
      current !! k =
        Some (j01 data * (exp (q * vk / (n1 data * kb * t data)) - 1)
              + j02 data * (exp (q * vk / (n2 data * kb * t data)) - 1)
              + vk / rsh data
              - jsc_).
Proof.
  intros Hrs Hjsc.
  exists (map (two_diode_equation data jsc_) v).
  repeat split.
  - intros solver. unfold iv2diode.
    rewrite (iv_no_rs_some _ _ _ Hjsc). run.
    by rewrite Hrs, float_eq_refl.
  - by apply iv_no_rs_some.
  - apply length_map.
  - intros k vk Hk. rewrite list_lookup_fmap, Hk. reflexivity.
Qed.

(** ** The implicit path: series resistance not zero *)

Lemma broadcast_same_length (op : R -> R -> R) (a b : ndarray) :
  length a = length b -> np.broadcast op a b = Ok (zip_with op a b).
Proof. intros Hl. unfold np.broadcast. by rewrite Hl, Nat.eqb_refl. Qed.

Lemma clip_length (a : ndarray) (lo hi : R) : length (np.clip a lo hi) = length a.
Proof. apply length_map. Qed.

Lemma min_ok_nonempty (v : ndarray) (lo : R) : np.min v = Ok lo -> v <> [].
Proof. destruct v; [discriminate | done]. Qed.

(** The closure on an array of the shape of [v]: component k is
    [j[k] - I(v[k] - rs * j[k])]. *)
Lemma iv2diode_fun_same_length (v j : ndarray) (data : TwoDiodeData) (jsc_ : R) :
  jsc data = Some jsc_ ->
  length j = length v ->
  iv2diode_fun v data j =
    Ok (zip_with (fun vk jk => jk - two_diode_equation data jsc_ (vk - rs data * jk)) v j).
Proof.
  intros Hj Hl. unfold iv2diode_fun.
  rewrite broadcast_same_length by (by rewrite length_map). run.
  rewrite (iv_no_rs_some _ _ _ Hj). run.
  rewrite broadcast_same_length
    by (by rewrite length_map, length_zip_with, length_map, Hl, Nat.min_id).
  f_equal. clear Hj.
  revert j Hl. induction v as [|vk v IH]; intros [|jk j] Hl; simpl in *; try done.
  f_equal. apply IH. lia.
Qed.

(** What a returned array went through: the explicit estimate was
    computed, extremes of [v] exist, the root finder answered with a
    solution it flags as a success, and that solution is the array. *)
Lemma iv2diode_returns_solution (v : ndarray) (data : TwoDiodeData)
    (kwargs : gmap string obj) (J : ndarray) :
  rs data <> 0 ->
  iv2diode v data kwargs = Ok J ->
  exists current lo hi sol,
    iv_no_rs v data = Ok current /\ np.min v = Ok lo /\ np.max v = Ok hi /\
    root (iv2diode_fun v data)
         (np.clip current (lo / rs data) (hi / rs data)) kwargs = Ok sol /\
    success sol = true /\ J = x sol.
Proof.
  intros Hrs. unfold iv2diode. intros Hrun.
  apply bind_ok in Hrun as (current & Hcur & Hrun).
  rewrite (proj2 (float_eq_false _ _) Hrs) in Hrun.
  apply bind_ok in Hrun as (lo & Hlo & Hrun).
  apply bind_ok in Hrun as (hi & Hhi & Hrun).
  apply bind_ok in Hrun as (sol & Hsol & Hrun).
  destruct (success sol) eqn:Hs; simpl in Hrun; [|discriminate].
  injection Hrun as <-. by exists current, lo, hi, sol.
Qed.

(** C2.  Let the root finder honour [root_contract] with tolerance
    [tol].  For [rs > 0], whenever [iv2diode] returns an array [J], it
    has the shape of [v] and every sample [V] with its current [Jk]
    satisfies [|Jk - I_explicit(V - rs * Jk)| <= tol]. *)
Theorem iv2diode_residual_law (tol : gmap string obj -> R) (v : ndarray)
    (data : TwoDiodeData) (kwargs : gmap string obj) (J : ndarray) :
  root_contract tol ->
  0 < rs data ->
  iv2diode v data kwargs = Ok J ->
  exists jsc_ : R,
    jsc data = Some jsc_ /\
    Forall2 (fun V Jk =>
               Rabs (Jk - two_diode_equation data jsc_ (V - rs data * Jk))
               <= tol kwargs) v J.
Proof.
  intros Hroot Hrs Hrun.
  apply iv2diode_returns_solution in Hrun
    as (current & lo & hi & sol & Hcur & Hlo & _ & Hsol & Hs & ->); [|lra].
  apply min_ok_nonempty in Hlo.
  destruct (jsc data) as [jsc_|] eqn:Hj; cycle 1.
  { unfold iv_no_rs in Hcur. rewrite Hj in Hcur. by destruct v. }
  exists jsc_. split; [done|].
  destruct (Hroot _ _ _ _ Hsol Hs) as (Hlen & r & Hr & Hall).
  rewrite clip_length, (iv_no_rs_length _ _ _ Hcur) in Hlen.
  rewrite (iv2diode_fun_same_length _ _ _ _ Hj Hlen) in Hr.
  injection Hr as <-.
  revert Hlen Hall. generalize (x sol). clear.
  induction v as [|vk v IH]; intros [|jk j] Hlen Hall; simpl in *; try done.
  inversion Hall; subst. constructor; [done|]. apply IH; [lia|done].
Qed.

(** C3.  With [rs <> 0], once the root finder has been called and has
    answered with a solution whose success flag is false, [iv2diode]
    raises a [RuntimeError] whose message ends with the solver's own
    report; in particular no array is returned. *)
Theorem iv2diode_failure_raises (v : ndarray) (data : TwoDiodeData)
    (kwargs : gmap string obj) (current : ndarray) (lo hi : R)
    (sol : OptimizeResult) :
  rs data <> 0 ->
  iv_no_rs v data = Ok current ->
  np.min v = Ok lo ->
  np.max v = Ok hi ->
  root (iv2diode_fun v data)
       (np.clip current (lo / rs data) (hi / rs data)) kwargs = Ok sol ->
  success sol = false ->
  iv2diode v data kwargs =
    Raise (RuntimeError
             ("The IV calculation failed to converge. Solver info:"
              +:+ String "010"%char EmptyString +:+ sol_str sol)) /\
  forall J : ndarray, iv2diode v data kwargs <> Ok J.
Proof.
  intros Hrs Hcur Hlo Hhi Hsol Hs.
  assert (iv2diode v data kwargs = Raise (RuntimeError (convergence_msg sol))) as Hraise.
  { unfold iv2diode. rewrite Hcur. run.
    rewrite (proj2 (float_eq_false _ _) Hrs), Hlo, Hhi. simpl.
    rewrite Hsol. simpl. by rewrite Hs. }
  split; [exact Hraise|]. intros J. by rewrite Hraise.
Qed.

(** ** The junction facade: [solve_iv] and the short-circuit current *)

(** Deriving the short-circuit current never raises. *)
Lemma _get_jsc_returns (self : TwoDiodeJunction) (a : option Absorption)
    (l : option LightSource) :
  exists r : R, _get_jsc self a l = Ok r.
Proof.
  unfold _get_jsc. destruct a as [a|], l as [ls|]; eauto.
  unfold xr.new, spectrum. rewrite length_map, Nat.eqb_refl. run.
  unfold getattr. simpl. rewrite lookup_insert_eq. eauto.
Qed.

Lemma _get_jsc_dark (self : TwoDiodeJunction) (a : option Absorption)
    (l : option LightSource) :
  a = None \/ l = None -> _get_jsc self a l = Ok 0.
Proof. intros [-> | ->]; unfold _get_jsc; [done | by destruct a]. Qed.

(** A float is in use whenever the current is stored or the optics are
    incomplete. *)
Lemma jsc_is_array_dark (self : TwoDiodeJunction) (a : option Absorption)
    (l : option LightSource) :
  a = None \/ l = None -> jsc_is_array self a l = false.
Proof.
  intros [-> | ->]; unfold jsc_is_array; destruct (jsc (data self)); try done.
  by destruct a.
Qed.

Lemma jsc_is_array_stored (self : TwoDiodeJunction) (a : option Absorption)
    (l : option LightSource) (j : R) :
  jsc (data self) = Some j -> jsc_is_array self a l = false.
Proof. intros Hj. unfold jsc_is_array. by rewrite Hj. Qed.

(** C4.  On a junction without a precomputed [jsc], when the
    absorption or the light source is absent the short-circuit current
    resolves to exactly zero, [solve_iv] is the solver run at [jsc = 0]
    with an empty attribute mapping, and so every dataset it returns
    carries none of Voc, Isc, FF, Vmpp, Impp, Pmpp, eta. *)
Theorem solve_iv_dark (self : TwoDiodeJunction) (voltage : ndarray)
    (absorption : option Absorption) (light_source : option LightSource) :
  jsc (data self) = None ->
  absorption = None \/ light_source = None ->
  _get_jsc self absorption light_source = Ok 0 /\
  solve_iv self voltage absorption light_source =
    (kwargs ← expand (options self);
     i ← call_iv2diode voltage (replace_jsc (data self) (Some 0)) kwargs;
     current ← xr.new i "voltage" voltage;
     Ok {| xr.data_vars := {[ "current" := current ]}; xr.attrs := ∅ |}) /\
  forall ds : xr.Dataset,
    solve_iv self voltage absorption light_source = Ok ds ->
    xr.attrs ds = ∅ /\
    Forall (fun name => xr.attrs ds !! name = None)
           ["Voc"; "Isc"; "FF"; "Vmpp"; "Impp"; "Pmpp"; "eta"].
Proof.
  intros Hnone Hdark.
  pose proof (_get_jsc_dark self _ _ Hdark) as Hj.
  assert (solve_iv self voltage absorption light_source =
    (kwargs ← expand (options self);
     i ← call_iv2diode voltage (replace_jsc (data self) (Some 0)) kwargs;
     current ← xr.new i "voltage" voltage;
     Ok {| xr.data_vars := {[ "current" := current ]}; xr.attrs := ∅ |})) as Hrun.
  { unfold solve_iv. rewrite (jsc_is_array_dark self _ _ Hdark), Hnone, Hj. run.
    destruct (expand (options self)) as [kwargs|]; simpl; [|done].
    destruct (call_iv2diode _ _ kwargs) as [i|]; simpl; [|done].
    destruct (xr.new i "voltage" voltage) as [current|]; simpl; [|done].
    by rewrite float_eq_refl. }
  split; [exact Hj|]. split; [exact Hrun|].
  intros ds. rewrite Hrun. intros Hds.
  apply bind_ok in Hds as (kwargs & _ & Hds).
  apply bind_ok in Hds as (i & _ & Hds).
  apply bind_ok in Hds as (current & _ & Hds).
  injection Hds as <-. simpl. split; [done|].
  repeat constructor.
Qed.

(** C10.  A junction whose [options] is [None] cannot be solved:
    [solve_iv] raises [TypeError] when the options are expanded into
    the call of the solver, whatever the other arguments, the series
    resistance and the collaborators are.  Conversely a returned
    dataset means [options] is a mapping. *)
Theorem solve_iv_needs_options (self : TwoDiodeJunction) (voltage : ndarray)
    (absorption : option Absorption) (light_source : option LightSource) :
  (options self = None ->
   solve_iv self voltage absorption light_source = Raise TypeError) /\
  (forall ds : xr.Dataset,
      solve_iv self voltage absorption light_source = Ok ds ->
      exists m : Mapping, options self = Some m).
Proof.
  assert (options self = None ->
          solve_iv self voltage absorption light_source = Raise TypeError) as Hnone.
  { intros Hopt. unfold solve_iv. rewrite Hopt.
    destruct (jsc (data self)) as [j|]; [done|].
    by destruct (_get_jsc_returns self absorption light_source) as [r ->]. }
  split; [exact Hnone|].
  intros ds Hds. destruct (options self) as [m|] eqn:Hopt; [eauto|].
  rewrite Hnone in Hds; [discriminate | done].
Qed.

(** C9.  [solve_equilibrium] and [solve_short_circuit] raise
    [NotImplementedError] on every junction and every argument; they
    return nothing. *)
Theorem unsupported_solves (self : TwoDiodeJunction) (absorption : Absorption)
    (light_source : LightSource) :
  solve_equilibrium self = Raise NotImplementedError /\
  solve_short_circuit self absorption light_source = Raise NotImplementedError /\
  forall ds : xr.Dataset,
    solve_equilibrium self <> Ok ds /\
    solve_short_circuit self absorption light_source <> Ok ds.
Proof. repeat split; done. Qed.
(** ** Temperature extrapolation: [from_reference] *)

(** A call that returns has divided four times without a zero divisor
    and built the junction from the rescaled currents. *)
Lemma from_reference_returns (band_gap t_new : R) (ref : TwoDiodeData)
    (given opts : option Mapping) (jn : TwoDiodeJunction) :
  from_reference band_gap t_new ref given opts = Ok jn ->
  t ref <> 0 /\ t_new <> 0 /\ n1 ref * kb <> 0 /\ n2 ref * kb <> 0 /\
  jn = {| data := replace_t_j01_j02 ref t_new
            (j01 ref * (t_new / t ref) ^ 3
             * exp (- q * band_gap / (n1 ref * kb) * (1 / t_new - 1 / t ref)))
            (j02 ref * Rpower (t_new / t ref) (5 / 3)
             * exp (- q * band_gap / (n2 ref * kb) * (1 / t_new - 1 / t ref)));
          params := Some (reference_parameters band_gap ref given);
          options := opts |}.
Proof.
  unfold from_reference, truediv.
  destruct (float_eq (t ref) 0) eqn:Ht; [discriminate|].
  destruct (float_eq (n1 ref * kb) 0) eqn:Hn1; [discriminate|].
  destruct (float_eq t_new 0) eqn:Htn; [discriminate|].
  destruct (float_eq (n2 ref * kb) 0) eqn:Hn2; [discriminate|].
  run. intros [= <-].
  apply float_eq_false in Ht, Hn1, Htn, Hn2. done.
Qed.

(** Conversely, without a zero divisor the call returns. *)
Lemma from_reference_defined (band_gap t_new : R) (ref : TwoDiodeData)
    (given opts : option Mapping) :
  t ref <> 0 -> t_new <> 0 -> n1 ref * kb <> 0 -> n2 ref * kb <> 0 ->
  exists jn : TwoDiodeJunction,
    from_reference band_gap t_new ref given opts = Ok jn.
Proof.
  intros Ht Htn Hn1 Hn2. unfold from_reference.
  rewrite !truediv_ok by done. run. eauto.
Qed.

(** A zero reference temperature stops the call at its first quotient. *)
Lemma from_reference_zero_reference (band_gap t_new : R) (ref : TwoDiodeData)
    (given opts : option Mapping) :
  t ref = 0 ->
  from_reference band_gap t_new ref given opts = Raise ZeroDivisionError.
Proof.
  intros Ht. unfold from_reference. rewrite Ht, (truediv_zero t_new). reflexivity.
Qed.

(** C5.  Extrapolating to the reference temperature itself changes
    neither saturation current: every junction [from_reference]
    returns for [t = data.t] has the reference [j01] and [j02] (and
    temperature), and it does return one for every parameter set whose
    temperature and ideality factors are not zero. *)
Theorem from_reference_identity (band_gap : R) (ref : TwoDiodeData)
    (given opts : option Mapping) :
  (forall jn : TwoDiodeJunction,
      from_reference band_gap (t ref) ref given opts = Ok jn ->
      j01 (data jn) = j01 ref /\
      j02 (data jn) = j02 ref /\
      t (data jn) = t ref) /\
  (kb <> 0 -> t ref <> 0 -> n1 ref <> 0 -> n2 ref <> 0 ->
   exists jn : TwoDiodeJunction,
     from_reference band_gap (t ref) ref given opts = Ok jn).
Proof.
  split.
  - intros jn Hjn.
    apply from_reference_returns in Hjn as (Ht & _ & _ & _ & ->). simpl.
    replace (t ref / t ref) with 1 by (by field).
    replace (1 / t ref - 1 / t ref) with 0 by lra.
    rewrite !Rmult_0_r, exp_0.
    unfold Rpower. rewrite ln_1, Rmult_0_r, exp_0.
    repeat split; lra.
  - intros Hkb Ht Hn1 Hn2.
    apply from_reference_defined; try done; by apply Rmult_integral_contrapositive.
Qed.

(** C6.  Whatever the band gap and the target temperature, a junction
    returned by [from_reference] has the reference's [n1], [n2], [rs],
    [rsh] and [jsc]: only [t], [j01] and [j02] can differ. *)
Theorem from_reference_frame (band_gap t_new : R) (ref : TwoDiodeData)
    (given opts : option Mapping) (jn : TwoDiodeJunction) :
  from_reference band_gap t_new ref given opts = Ok jn ->
  n1 (data jn) = n1 ref /\
  n2 (data jn) = n2 ref /\
  rs (data jn) = rs ref /\
  rsh (data jn) = rsh ref /\
  jsc (data jn) = jsc ref.
Proof.
  intros Hjn. by apply from_reference_returns in Hjn as (_ & _ & _ & _ & ->).
Qed.

(** C7 (as the code has it).  In the metadata of the junction that
    [from_reference] returns, 'band_gap' and 't_ref' resolve to the
    band gap and the reference temperature of the call, whatever the
    caller's mapping holds under these keys; every other key resolves
    as in the caller's mapping. *)
Theorem from_reference_metadata (band_gap t_new : R) (ref : TwoDiodeData)
    (given opts : option Mapping) (jn : TwoDiodeJunction) :
  from_reference band_gap t_new ref given opts = Ok jn ->
  exists m : Mapping,
    params jn = Some m /\
    get "band_gap" m = Some (Float band_gap) /\
    get "t_ref" m = Some (Float (t ref)) /\
    forall key : string,
      key <> "band_gap" -> key <> "t_ref" ->
      get key m = match given with Some p => get key p | None => None end.
Proof.
  intros Hjn. apply from_reference_returns in Hjn as (_ & _ & _ & _ & ->).
  exists (reference_parameters band_gap ref given). simpl.
  split; [done|]. split; [by rewrite lookup_insert_eq|].
  split.
  - rewrite lookup_insert_ne by done. by rewrite lookup_singleton_eq.
  - intros key Hb Ht.
    rewrite lookup_insert_ne by done. rewrite lookup_singleton_ne by done.
    destruct given as [p|]; simpl.
    + by destruct (get key p).
    + by rewrite lookup_empty.
Qed.

(** ** Quantum efficiency: [solve_qe] *)

Lemma sum_from (acc : R) (a : ndarray) :
  foldl Rplus acc a = acc + np.sum a.
Proof.
  unfold np.sum. revert acc. induction a as [|a0 a IH]; intros acc; simpl.
  - lra.
  - rewrite (IH (acc + a0)), (IH (0 + a0)). lra.
Qed.

(** One trapezoid, then the rest of the rule. *)
Lemma trapz_step (y0 y1 x0 x1 : R) (ys xs : ndarray) :
  xr.trapz (y0 :: y1 :: ys) (x0 :: x1 :: xs) =
  (x1 - x0) * 0.5 * (y1 + y0) + xr.trapz (y1 :: ys) (x1 :: xs).
Proof.
  unfold xr.trapz at 1. simpl tail. simpl zip_with. unfold np.sum. simpl foldl.
  rewrite sum_from. unfold xr.trapz. simpl tail. lra.
Qed.

(** The last element of [x1 :: xs] does not depend on the default. *)
Lemma last_cons_default (x0 x1 : R) (xs : ndarray) :
  List.last (x1 :: xs) x0 = List.last xs x1.
Proof.
  revert x0 x1. induction xs as [|x2 xs IH]; intros x0 x1; [done|].
  change (List.last (x1 :: x2 :: xs) x0) with (List.last (x2 :: xs) x0).
  by rewrite !IH.
Qed.

(** The rule [solve_qe] integrates with adds up the trapezoids. *)
Lemma trapz_trapezoids (x y : ndarray) : xr.trapz y x = np.sum (trapezoids x y).
Proof.
  unfold xr.trapz. f_equal.
  revert y. induction x as [|x0 xs IH]; intros y; [done|].
  destruct y as [|y0 ys]; [by destruct xs|].
  destruct xs as [|x1 xs]; [done|].
  destruct ys as [|y1 ys]; [done|].
  change (trapezoids (x0 :: x1 :: xs) (y0 :: y1 :: ys))
    with ((x1 - x0) * 0.5 * (y1 + y0) :: trapezoids (x1 :: xs) (y1 :: ys)).
  rewrite <- IH. reflexivity.
Qed.

(** Under a fraction of 0.5 everywhere each trapezoid is half the
    width of its interval. *)
Lemma trapezoids_uniform (x row : ndarray) :
  length row = length x ->
  Forall (eq 0.5) row ->
  trapezoids x row = half_widths x.
Proof.
  revert row. induction x as [|x0 xs IH]; intros row Hlen Hrow.
  - by destruct row.
  - destruct row as [|y0 ys]; [done|].
    destruct xs as [|x1 xs]; [by destruct ys|].
    destruct ys as [|y1 ys]; [done|].
    inversion Hrow as [|? ? <- Hys]; subst. inversion Hys as [|? ? <- _]; subst.
    change (trapezoids (x0 :: x1 :: xs) (0.5 :: 0.5 :: ys))
      with ((x1 - x0) * 0.5 * (0.5 + 0.5) :: trapezoids (x1 :: xs) (0.5 :: ys)).
    change (half_widths (x0 :: x1 :: xs))
      with ((x1 - x0) * 0.5 :: half_widths (x1 :: xs)).
    rewrite IH; [|simpl in *; lia | done].
    f_equal. lra.
Qed.

(** In exact arithmetic the half widths add up to half the distance
    from the first to the last coordinate.  Binary64 rounds every
    difference and every addition, and need not arrive there: see
    [uniform_absorption_misses_half_width]. *)
Lemma half_widths_exact (x0 : R) (xs : ndarray) :
  np.sum (half_widths (x0 :: xs)) = 0.5 * (List.last xs x0 - x0).
Proof.
  revert x0. induction xs as [|x1 xs IH]; intros x0.
  - unfold np.sum. simpl. lra.
  - change (np.sum (half_widths (x0 :: x1 :: xs)))
      with (foldl Rplus (0 + (x1 - x0) * 0.5) (half_widths (x1 :: xs))).
    rewrite sum_from, IH, (last_cons_default x0 x1 xs). lra.
Qed.

(** C8 (as the code has it).  [solve_qe] returns the curves 'eqe' and
    'iqe' over the wavelengths of the absorption: at each wavelength
    'eqe' is the sum ([np.sum]) of the trapezoids
    [(p[i+1] - p[i]) * 0.5 * (a[i+1] + a[i])] of that wavelength's
    absorbed fractions over the positions, and 'iqe' is one.  When the
    absorbed fraction is 0.5 at every position and wavelength, 'eqe'
    is the sum of the half widths [(p[i+1] - p[i]) * 0.5] of the
    position intervals; with the positions spanning a single interval
    that is 0.5 times its width. *)
Theorem solve_qe_trapezoids (self : TwoDiodeJunction) (a : Absorption)
    (light_source : option LightSource) :
  exists (ds : xr.Dataset) (eqe iqe : xr.DataArray),
    solve_qe self a light_source = Ok ds /\
    xr.data_vars ds !! "eqe" = Some eqe /\
    xr.data_vars ds !! "iqe" = Some iqe /\
    xr.coords eqe = wavelength a /\
    xr.coords iqe = wavelength a /\
    length (xr.values eqe) = length (absorbed a) /\
    length (xr.values iqe) = length (absorbed a) /\
    (forall (k : nat) (row : ndarray),
        absorbed a !! k = Some row ->
        xr.values eqe !! k = Some (np.sum (trapezoids (position a) row))) /\
    Forall (eq 1) (xr.values iqe) /\
    (Forall (fun row => length row = length (position a) /\
                        Forall (eq 0.5) row) (absorbed a) ->
     Forall (eq (np.sum (half_widths (position a)))) (xr.values eqe) /\
     forall p0 p1 : R,
       position a = [p0; p1] ->
       Forall (eq (0.5 * (p1 - p0))) (xr.values eqe)).
Proof.
  exists {| xr.data_vars :=
              {[ "eqe" := integrate_position a;
                 "iqe" := xr.ones_like (integrate_position a) ]};
            xr.attrs := ∅ |},
         (integrate_position a), (xr.ones_like (integrate_position a)).
  simpl.
  assert (Forall (fun row => length row = length (position a) /\
                             Forall (eq 0.5) row) (absorbed a) ->
          Forall (eq (np.sum (half_widths (position a))))
                 (map (fun row => xr.trapz row (position a)) (absorbed a)))
    as Huniform.
  { intros Hrows. apply Forall_fmap. eapply Forall_impl; [exact Hrows|].
    intros row [Hlen Hhalf]. simpl.
    by rewrite trapz_trapezoids, trapezoids_uniform. }
  split; [reflexivity|]. split; [reflexivity|]. split; [reflexivity|].
  split; [reflexivity|]. split; [reflexivity|].
  split; [apply length_map|]. split; [by rewrite !length_map|].
  split; [|split].
  - intros k row Hk. by rewrite list_lookup_fmap, Hk, <- trapz_trapezoids.
  - apply Forall_fmap, Forall_true. done.
  - intros Hrows. split; [by apply Huniform|].
    intros p0 p1 Hpos. specialize (Huniform Hrows).
    eapply Forall_impl; [exact Huniform|].
    intros e <-. rewrite Hpos. unfold np.sum. simpl. lra.
Qed.
End Properties.

(** * The model on sample inputs *)

#[local] Existing Instance SI.
#[local] Existing Instance stay_put.
#[local] Existing Instance first_sample_base.

Lemma SI_kb_nonzero : kb <> 0.
Proof. simpl. lra. Qed.

(** ** The fast path *)

(** C1 on the lit example cell at 0 V and 0.4 V: two currents come
    back, the first being the equation at 0 V. *)
Lemma iv2diode_zero_rs_witness :
  rs lit_cell = 0 /\
  exists current : ndarray,
    iv2diode [0; 0.4] lit_cell ∅ = Ok current /\
    length current = 2%nat /\
    current !! 0%nat = Some (two_diode_equation lit_cell 0.03 0).
Proof.
  split; [reflexivity|].
  destruct (iv2diode_zero_rs [0; 0.4] lit_cell ∅ 0.03 eq_refl eq_refl)
    as (current & Hrun & _ & Hlen & Hk).
  exists current. split; [apply Hrun|]. split; [exact Hlen|].
  apply (Hk 0%nat 0). reflexivity.
Defined.

(** ** The implicit path on the ohmic cell *)

Lemma ohmic_equation (vk : R) : two_diode_equation ohmic_cell 0 vk = vk.
Proof. unfold two_diode_equation. simpl. lra. Qed.

Lemma clip_point (a b : R) : np.clip [a] (b / 1) (b / 1) = [b].
Proof.
  unfold np.clip. simpl. f_equal.
  replace (b / 1) with b by lra.
  unfold Rmin, Rmax. destruct (Rle_dec a b); destruct (Rle_dec _ b); lra.
Qed.

(** What [stay_put] answers on the ohmic cell at the single voltage
    [vk]: the start is [vk] itself and the residual there is [vk]. *)
Lemma ohmic_root (vk : R) :
  root (iv2diode_fun [vk] ohmic_cell)
       (np.clip [two_diode_equation ohmic_cell 0 vk] (vk / 1) (vk / 1)) ∅ =
  Ok {| x := [vk];
        success := float_eq vk 0 && true;
        status := if float_eq vk 0 && true then 1%Z else 5%Z;
        message := if float_eq vk 0 && true then "The solution converged."
                   else "The iteration is not making good progress." |}.
Proof.
  rewrite clip_point. unfold root, stay_put.
  rewrite (iv2diode_fun_same_length [vk] [vk] ohmic_cell 0) by done.
  run. rewrite ohmic_equation.
  replace (vk - (vk - 1 * vk)) with vk by lra. reflexivity.
Qed.

Lemma one_nonzero : float_eq 1 0 = false.
Proof. apply float_eq_false. lra. Qed.

Lemma ohmic_run_at_zero : iv2diode [0] ohmic_cell ∅ = Ok [0].
Proof.
  unfold iv2diode. rewrite (iv_no_rs_some [0] ohmic_cell 0 eq_refl).
  unfold mbind, result_bind. cbv beta iota.
  change (rs ohmic_cell) with 1. rewrite one_nonzero.
  change (np.min [0]) with (Ok 0). change (np.max [0]) with (Ok 0).
  cbv beta iota.
  change (map (two_diode_equation ohmic_cell 0) [0])
    with [two_diode_equation ohmic_cell 0 0].
  rewrite (ohmic_root 0). cbv beta iota.
  by rewrite float_eq_refl.
Qed.

(** [stay_put] honours the contract with tolerance zero. *)
Lemma stay_put_contract : root_contract (fun _ => 0).
Proof.
  intros f x0 kwargs sol. simpl.
  destruct (f x0) as [r|e] eqn:Hf; simpl; [|discriminate].
  intros [= <-]. simpl. intros Hok. split; [done|].
  exists r. split; [done|].
  apply Forall_forall. intros ri Hri.
  rewrite forallb_forall in Hok.
  apply list_elem_of_In, Hok, float_eq_true in Hri. subst ri.
  rewrite Rabs_R0. lra.
Qed.

(** C2 on the ohmic cell at 0 V: the returned current is 0 and the
    residual there is within the (zero) tolerance. *)
Lemma iv2diode_residual_law_witness :
  0 < rs ohmic_cell /\
  iv2diode [0] ohmic_cell ∅ = Ok [0] /\
  Forall2 (fun V Jk =>
             Rabs (Jk - two_diode_equation ohmic_cell 0 (V - rs ohmic_cell * Jk))
             <= 0) [0] [0].
Proof.
  assert (0 < rs ohmic_cell) as Hrs by (simpl; lra).
  split; [exact Hrs|]. split; [exact ohmic_run_at_zero|].
  destruct (iv2diode_residual_law (fun _ => 0) [0] ohmic_cell ∅ [0]
              stay_put_contract Hrs ohmic_run_at_zero) as (jsc_ & Hj & Hres).
  injection Hj as <-. exact Hres.
Defined.

(** C3 on the ohmic cell at 1 V: the start is not a root, [stay_put]
    reports a failure, and the error carries its report. *)
Lemma iv2diode_failure_raises_witness :
  iv2diode [1] ohmic_cell ∅ =
    Raise (RuntimeError
             ("The IV calculation failed to converge. Solver info:"
              +:+ String "010"%char EmptyString
              +:+ "The iteration is not making good progress.")).
Proof.
  pose proof (ohmic_root 1) as Hroot. rewrite one_nonzero in Hroot. simpl in Hroot.
  assert (rs ohmic_cell <> 0) as Hrs by (simpl; lra).
  exact (proj1 (iv2diode_failure_raises [1] ohmic_cell ∅
                  [two_diode_equation ohmic_cell 0 1] 1 1 _
                  Hrs eq_refl eq_refl eq_refl Hroot eq_refl)).
Defined.

(** ** The facade *)

(** C4 on the default junction with an empty options mapping, in the
    dark: a dataset comes back and its attribute mapping is empty. *)
Lemma solve_iv_dark_witness :
  jsc (data dark_junction) = None /\
  exists ds : xr.Dataset,
    solve_iv dark_junction [0; 0.4] None None = Ok ds /\
    xr.attrs ds = ∅.
Proof.
  split; [reflexivity|].
  destruct (solve_iv_dark dark_junction [0; 0.4] None None eq_refl
              (or_introl eq_refl)) as (_ & Hrun & Hattrs).
  assert (exists ds, solve_iv dark_junction [0; 0.4] None None = Ok ds) as [ds Hds].
  { rewrite Hrun. unfold expand, call_iv2diode. simpl options. run.
    destruct (decide _) as [[Hkey | Hkey]|_];
      [by apply is_Some_None in Hkey | by apply is_Some_None in Hkey |].
    rewrite iv2diode_fast_path by reflexivity. simpl. eauto. }
  exists ds. split; [exact Hds|]. exact (proj1 (Hattrs ds Hds)).
Defined.

(** By contrast the lit junction gets the curve parameters of its base
    class, and at 0 V its current is the short-circuit current negated. *)
Example solve_iv_lit :
  exists (ds : xr.Dataset) (current : xr.DataArray),
    solve_iv lit_junction [0] None None = Ok ds /\
    xr.data_vars ds !! "current" = Some current /\
    xr.coords current = [0] /\
    xr.values current = [- 0.03] /\
    xr.attrs ds !! "Isc" = Some (- 0.03).
Proof.
  assert (float_eq 0.03 0 = false) as Hlit by (apply float_eq_false; lra).
  unfold solve_iv, expand, call_iv2diode. simpl. run.
  destruct (decide _) as [[Hkey | Hkey]|_];
    [by apply is_Some_None in Hkey | by apply is_Some_None in Hkey |].
  rewrite iv2diode_fast_path by reflexivity. simpl.
  rewrite Hlit. simpl. rewrite two_diode_equation_at_zero.
  eexists _, _. split; [reflexivity|]. simpl.
  split; [reflexivity|]. split; [reflexivity|].
  replace (- (0.03)) with (-0.03) by lra. done.
Qed.

(** C10 on the default junction, whose options are [None]. *)
Lemma solve_iv_needs_options_witness :
  options TwoDiodeJunction_default = None /\
  solve_iv TwoDiodeJunction_default [0; 0.4] None None = Raise TypeError.
Proof.
  split; [reflexivity|].
  exact (proj1 (solve_iv_needs_options TwoDiodeJunction_default [0; 0.4] None None)
               eq_refl).
Defined.

(** ** Temperature extrapolation *)

(** C5 on the default parameters (297 K) and a band gap of 1.42 eV. *)
Lemma from_reference_identity_witness :
  exists jn : TwoDiodeJunction,
    from_reference 1.42 297 TwoDiodeData_default None None = Ok jn /\
    j01 (data jn) = 1e-6 /\ j02 (data jn) = 0.
Proof.
  destruct (from_reference_identity 1.42 TwoDiodeData_default None None)
    as [Hsame Hdefined].
  destruct Hdefined as [jn Hjn];
    [exact SI_kb_nonzero | simpl; lra | simpl; lra | simpl; lra |].
  exists jn. split; [exact Hjn|].
  destruct (Hsame jn Hjn) as (H1 & H2 & _). split; [exact H1 | exact H2].
Defined.

Lemma default_to_350K (given : option Mapping) :
  exists jn : TwoDiodeJunction,
    from_reference 1.42 350 TwoDiodeData_default given None = Ok jn.
Proof.
  apply from_reference_defined; simpl; try lra.
  all: apply Rmult_integral_contrapositive; split; lra.
Qed.

(** C6 on the default parameters taken from 297 K to 350 K. *)
Lemma from_reference_frame_witness :
  exists jn : TwoDiodeJunction,
    from_reference 1.42 350 TwoDiodeData_default None None = Ok jn /\
    n1 (data jn) = 1 /\ n2 (data jn) = 2 /\ rs (data jn) = 0 /\
    rsh (data jn) = 1e14 /\ jsc (data jn) = None.
Proof.
  destruct (default_to_350K None) as [jn Hjn].
  exists jn. split; [exact Hjn|].
  exact (from_reference_frame 1.42 350 TwoDiodeData_default None None jn Hjn).
Defined.

(** C7 (as the code has it) on a caller mapping that holds its own
    'band_gap' and a 'width': the former resolves to the band gap of
    the call, the latter to the caller's value. *)
Lemma from_reference_metadata_witness :
  exists (jn : TwoDiodeJunction) (m : Mapping),
    from_reference 1.42 350 TwoDiodeData_default
      (Some (Dict {[ "band_gap" := Float 2; "width" := Float 1e-6 ]})) None = Ok jn /\
    params jn = Some m /\
    get "band_gap" m = Some (Float 1.42) /\
    get "t_ref" m = Some (Float 297) /\
    get "width" m = Some (Float 1e-6).
Proof.
  destruct (default_to_350K
              (Some (Dict {[ "band_gap" := Float 2; "width" := Float 1e-6 ]})))
    as [jn Hjn].
  destruct (from_reference_metadata _ _ _ _ _ jn Hjn) as (m & Hm & Hb & Ht & Hother).
  exists jn, m. split; [exact Hjn|]. split; [exact Hm|].
  split; [exact Hb|]. split; [exact Ht|].
  rewrite (Hother "width") by done. reflexivity.
Defined.

(** C7 as stated fails: the caller supplies 'band_gap' = 2, the call is
    made with a band gap of 1.42, and the metadata of the new junction
    resolves 'band_gap' to 1.42, not to the caller's 2. *)
Lemma caller_band_gap_is_overridden :
  exists (jn : TwoDiodeJunction) (m : Mapping),
    from_reference 1.42 350 TwoDiodeData_default
      (Some (Dict {[ "band_gap" := Float 2 ]})) None = Ok jn /\
    params jn = Some m /\
    get "band_gap" (Dict {[ "band_gap" := Float 2 ]}) = Some (Float 2) /\
    get "band_gap" m = Some (Float 1.42) /\
    get "band_gap" m <> Some (Float 2).
Proof.
  destruct (default_to_350K (Some (Dict {[ "band_gap" := Float 2 ]}))) as [jn Hjn].
  pose proof Hjn as Hshape.
  apply from_reference_returns in Hshape as (_ & _ & _ & _ & ->).
  eexists _, _. split; [exact Hjn|]. split; [reflexivity|].
  split; [reflexivity|].
  assert (get "band_gap"
            (reference_parameters 1.42 TwoDiodeData_default
               (Some (Dict {[ "band_gap" := Float 2 ]}))) = Some (Float 1.42))
    as Hget by reflexivity.
  split; [exact Hget|]. rewrite Hget.
  intros Heq. injection Heq as Heq. lra.
Qed.

(** ** Quantum efficiency *)

(** C8 (as the code has it) on the uniform half absorber: positions 0,
    1 and 4, so 'eqe' is the sum of (1 - 0) * 0.5 and (4 - 1) * 0.5 at
    both wavelengths. *)
Lemma solve_qe_trapezoids_witness :
  exists (ds : xr.Dataset) (eqe : xr.DataArray),
    solve_qe dark_junction half_absorber None = Ok ds /\
    xr.data_vars ds !! "eqe" = Some eqe /\
    length (xr.values eqe) = 2%nat /\
    Forall (eq (np.sum [(1 - 0) * 0.5; (4 - 1) * 0.5])) (xr.values eqe).
Proof.
  destruct (solve_qe_trapezoids dark_junction half_absorber None)
    as (ds & eqe & iqe & Hds & Heqe & _ & _ & _ & Hlen & _ & _ & _ & Huniform).
  exists ds, eqe. split; [exact Hds|]. split; [exact Heqe|]. split; [exact Hlen|].
  apply Huniform. repeat constructor.
Defined.

(** C8 as stated fails in the program's arithmetic.  Absorbed fraction
    0.5 at the positions 0, 0.2 and 0.9 (width W = 0.9): the two
    trapezoids are 0.1 and 0.35 in binary64 and add up to
    0.44999999999999996, whereas 0.5 * W is 0.45. *)
Lemma uniform_absorption_misses_half_width :
  let position := [0; 0x1.999999999999ap-3; 0x1.ccccccccccccdp-1]%float in
  let row := [0x1p-1; 0x1p-1; 0x1p-1]%float in
  let W := (0x1.ccccccccccccdp-1 - 0)%float in
  F64.eqe position [row; row]
    = [0x1.cccccccccccccp-2; 0x1.cccccccccccccp-2]%float /\
  (0x1p-1 * W)%float = 0x1.ccccccccccccdp-2%float /\
  PrimFloat.eqb 0x1.cccccccccccccp-2 (0x1p-1 * W) = false /\
  Forall (fun e => e <> (0x1p-1 * W)%float) (F64.eqe position [row; row]).
Proof.
  assert (0x1.cccccccccccccp-2%float <> 0x1.ccccccccccccdp-2%float) as Hne.
  { intros Heq.
    assert (PrimFloat.eqb 0x1.cccccccccccccp-2 0x1.cccccccccccccp-2 = true)
      as Hrefl by reflexivity.
    rewrite Heq in Hrefl at 2. vm_compute in Hrefl. discriminate Hrefl. }
  split; [vm_compute; reflexivity|]. split; [vm_compute; reflexivity|].
  split; [vm_compute; reflexivity|].
  vm_compute. repeat constructor; exact Hne.
Qed.

(** * Further properties of the solver and the facade *)

Section Further.

Context {consts : Constants} {finder : RootFinder}
        {base : JunctionBase TwoDiodeJunction}.

(** ** Errors and edges of [iv2diode] *)

(** The default [jsc = None] cannot be subtracted from a current: on
    any voltage array with a sample in it both [iv_no_rs] and
    [iv2diode] raise [TypeError], whatever the series resistance. *)
Theorem iv2diode_without_jsc (v : ndarray) (data : TwoDiodeData)
    (kwargs : gmap string obj) :
  jsc data = None ->
  v <> [] ->
  iv_no_rs v data = Raise TypeError /\
  iv2diode v data kwargs = Raise TypeError.
Proof.
  intros Hj Hv.
  assert (iv_no_rs v data = Raise TypeError) as Hraise.
  { unfold iv_no_rs. rewrite Hj. by destruct v. }
  split; [exact Hraise|]. unfold iv2diode. by rewrite Hraise.
Qed.

(** With a series resistance, an empty voltage array has no extremes to
    clamp the starting point with: [iv2diode] raises [ValueError], and
    does so before the root finder could be consulted. *)
Theorem iv2diode_empty_voltage (data : TwoDiodeData) (kwargs : gmap string obj)
    (jsc_ : R) :
  rs data <> 0 ->
  jsc data = Some jsc_ ->
  forall solver : RootFinder,
    @iv2diode _ solver [] data kwargs = Raise ValueError.
Proof.
  intros Hrs Hj solver. unfold iv2diode.
  rewrite (iv_no_rs_some _ _ _ Hj). run.
  by rewrite (proj2 (float_eq_false _ _) Hrs).
Qed.

Lemma min_lower_bound (v : ndarray) (lo : R) :
  np.min v = Ok lo -> Forall (fun vk => lo <= vk) v.
Proof.
  destruct v as [|v0 rest]; [discriminate|]. simpl. intros [= <-].
  assert (forall acc, foldl Rmin acc rest <= acc /\
                      Forall (fun vk => foldl Rmin acc rest <= vk) rest) as Hfold.
  { induction rest as [|v1 rest IH]; intros acc; simpl.
    - split; [lra | constructor].
    - destruct (IH (Rmin acc v1)) as [Hacc Hrest].
      pose proof (Rmin_l acc v1). pose proof (Rmin_r acc v1).
      split; [lra|]. constructor; [lra | exact Hrest]. }
  destruct (Hfold v0) as [H0 Hrest]. by constructor.
Qed.

Lemma max_upper_bound (v : ndarray) (hi : R) :
  np.max v = Ok hi -> Forall (fun vk => vk <= hi) v.
Proof.
  destruct v as [|v0 rest]; [discriminate|]. simpl. intros [= <-].
  assert (forall acc, acc <= foldl Rmax acc rest /\
                      Forall (fun vk => vk <= foldl Rmax acc rest) rest) as Hfold.
  { induction rest as [|v1 rest IH]; intros acc; simpl.
    - split; [lra | constructor].
    - destruct (IH (Rmax acc v1)) as [Hacc Hrest].
      pose proof (Rmax_l acc v1). pose proof (Rmax_r acc v1).
      split; [lra|]. constructor; [lra | exact Hrest]. }
  destruct (Hfold v0) as [H0 Hrest]. by constructor.
Qed.

(** For [rs > 0] the starting point handed to the root finder is the
    explicit estimate clamped sample by sample into
    [[min(v) / rs, max(v) / rs]]: it has the length of [v], every
    component lies in that interval, and the interval is not empty. *)
Theorem iv2diode_start_in_range (v : ndarray) (data : TwoDiodeData)
    (kwargs : gmap string obj) (current : ndarray) (lo hi : R) :
  0 < rs data ->
  iv_no_rs v data = Ok current ->
  np.min v = Ok lo ->
  np.max v = Ok hi ->
  let jguess := np.clip current (lo / rs data) (hi / rs data) in
  iv2diode v data kwargs =
    (sol ← root (iv2diode_fun v data) jguess kwargs;
     if negb (success sol) then Raise (RuntimeError (convergence_msg sol))
     else Ok (x sol)) /\
  length jguess = length v /\
  lo / rs data <= hi / rs data /\
  Forall (fun jk => lo / rs data <= jk <= hi / rs data) jguess.
Proof.
  intros Hrs Hcur Hlo Hhi jguess.
  assert (lo <= hi) as Hle.
  { pose proof (min_lower_bound _ _ Hlo) as Hl.
    pose proof (max_upper_bound _ _ Hhi) as Hh.
    destruct v as [|v0 rest]; [discriminate|].
    inversion Hl; inversion Hh; subst. lra. }
  assert (lo / rs data <= hi / rs data) as Hdiv.
  { unfold Rdiv. apply Rmult_le_compat_r; [|exact Hle].
    left. by apply Rinv_0_lt_compat. }
  split; [|split; [|split; [exact Hdiv|]]].
  - unfold iv2diode. rewrite Hcur. run.
    rewrite (proj2 (float_eq_false (rs data) 0)) by lra.
    by rewrite Hlo, Hhi.
  - unfold jguess. by rewrite clip_length, (iv_no_rs_length _ _ _ Hcur).
  - unfold jguess, np.clip. apply Forall_fmap, Forall_true. intros ck. simpl.
    unfold Rmin, Rmax.
    destruct (Rle_dec ck (lo / rs data)); destruct (Rle_dec _ (hi / rs data)); lra.
Qed.

(** [iv2diode] hands out no unconverged result: with [rs <> 0], an
    array that comes back is, unchanged, the solution of a root-finder
    call on the closure [fun], made with the caller's keyword options,
    that the root finder flagged as a success. *)
Theorem iv2diode_only_converged (v : ndarray) (data : TwoDiodeData)
    (kwargs : gmap string obj) (J : ndarray) :
  rs data <> 0 ->
  iv2diode v data kwargs = Ok J ->
  v <> [] /\
  (exists jsc_ : R, jsc data = Some jsc_) /\
  exists (x0 : ndarray) (sol : OptimizeResult),
    length x0 = length v /\
    root (iv2diode_fun v data) x0 kwargs = Ok sol /\
    success sol = true /\
    J = x sol.
Proof.
  intros Hrs Hrun.
  apply iv2diode_returns_solution in Hrun
    as (current & lo & hi & sol & Hcur & Hlo & _ & Hsol & Hs & ->); [|done].
  pose proof (min_ok_nonempty _ _ Hlo) as Hv.
  split; [exact Hv|]. split.
  - unfold iv_no_rs in Hcur. destruct (jsc data) as [j|]; [eauto|].
    by destruct v.
  - eexists _, sol. split; [|by eauto].
    by rewrite clip_length, (iv_no_rs_length _ _ _ Hcur).
Qed.


(** ** The shape of the curve on the fast path *)

(** At a sample of zero volts the fast path returns the short-circuit
    current negated, whatever the saturation currents are.  The
    parameters are required not to be zero where the equation divides
    by them (numpy would answer with [nan] there). *)
Theorem iv2diode_at_zero_volts (v : ndarray) (data : TwoDiodeData)
    (kwargs : gmap string obj) (jsc_ : R) (k : nat) :
  rs data = 0 ->
  jsc data = Some jsc_ ->
  kb <> 0 -> t data <> 0 -> n1 data <> 0 -> n2 data <> 0 -> rsh data <> 0 ->
  v !! k = Some 0 ->
  exists current : ndarray,
    iv2diode v data kwargs = Ok current /\
    current !! k = Some (- jsc_).
Proof.
  intros Hrs Hj _ _ _ _ _ Hk.
  exists (map (two_diode_equation data jsc_) v). split.
  - rewrite iv2diode_fast_path by done. by apply iv_no_rs_some.
  - rewrite list_lookup_fmap, Hk. simpl. by rewrite two_diode_equation_at_zero.
Qed.

(** The two-diode equation does not fall as the voltage grows, given
    non-negative saturation currents and positive constants, ideality
    factors, temperature and shunt resistance. *)
Lemma two_diode_equation_monotone (data : TwoDiodeData) (jsc_ va vb : R) :
  0 < q -> 0 < kb ->
  0 < t data -> 0 <= j01 data -> 0 <= j02 data ->
  0 < n1 data -> 0 < n2 data -> 0 < rsh data ->
  va <= vb ->
  two_diode_equation data jsc_ va <= two_diode_equation data jsc_ vb.
Proof.
  intros Hq Hkb Ht Hj1 Hj2 Hn1 Hn2 Hrsh [Hlt | ->]; [|lra].
  unfold two_diode_equation.
  assert (forall n, 0 < n ->
            exp (q * va / (n * kb * t data)) < exp (q * vb / (n * kb * t data)))
    as Hexp.
  { intros n Hn. apply exp_increasing. unfold Rdiv.
    apply Rmult_lt_compat_r.
    - apply Rinv_0_lt_compat. by repeat apply Rmult_lt_0_compat.
    - by apply Rmult_lt_compat_l. }
  pose proof (Hexp _ Hn1) as He1. pose proof (Hexp _ Hn2) as He2.
  assert (va / rsh data < vb / rsh data) as Hshunt.
  { unfold Rdiv. apply Rmult_lt_compat_r; [by apply Rinv_0_lt_compat | done]. }
  nra.
Qed.

(** On the fast path the curve does not fall: of two voltage samples
    the larger one never gets the smaller current (under the sign
    conditions above). *)
Theorem iv2diode_monotone (v : ndarray) (data : TwoDiodeData)
    (kwargs : gmap string obj) (jsc_ : R) (i k : nat) (va vb : R) :
  rs data = 0 ->
  jsc data = Some jsc_ ->
  0 < q -> 0 < kb ->
  0 < t data -> 0 <= j01 data -> 0 <= j02 data ->
  0 < n1 data -> 0 < n2 data -> 0 < rsh data ->
  v !! i = Some va ->
  v !! k = Some vb ->
  va <= vb ->
  exists (current : ndarray) (ca cb : R),
    iv2diode v data kwargs = Ok current /\
    current !! i = Some ca /\
    current !! k = Some cb /\
    ca <= cb.
Proof.
  intros Hrs Hj Hq Hkb Ht Hj1 Hj2 Hn1 Hn2 Hrsh Hi Hk Hle.
  exists (map (two_diode_equation data jsc_) v),
         (two_diode_equation data jsc_ va), (two_diode_equation data jsc_ vb).
  split; [|split; [|split]].
  - rewrite iv2diode_fast_path by done. by apply iv_no_rs_some.
  - by rewrite list_lookup_fmap, Hi.
  - by rewrite list_lookup_fmap, Hk.
  - by apply two_diode_equation_monotone.
Qed.

(** ** The facade: what [solve_iv] returns *)

(** Expanding a mapping into keyword arguments keeps every lookup: the
    keyword [key] carries what [m.get(key)] answers, also through the
    layers of a [ChainMap]. *)
Lemma items_get (key : string) (m : Mapping) : items m !! key = get key m.
Proof.
  revert m. fix IH 1. intros [d|maps]; simpl; [reflexivity|].
  induction maps as [|m' rest IHrest]; [apply lookup_empty|].
  rewrite lookup_union, (IH m'), IHrest.
  match goal with |- _ ∪ ?found = _ => by destruct (get key m'), found end.
Qed.

(** Inversion of a returning [solve_iv]. *)
Lemma solve_iv_returns (self : TwoDiodeJunction) (voltage : ndarray)
    (absorption : option Absorption) (light_source : option LightSource)
    (ds : xr.Dataset) :
  solve_iv self voltage absorption light_source = Ok ds ->
  exists (jsc_ : R) (m : Mapping) (i : ndarray) (parameters : gmap string R),
    match jsc (data self) with
    | Some j => j = jsc_
    | None => _get_jsc self absorption light_source = Ok jsc_
    end /\
    options self = Some m /\
    call_iv2diode voltage (replace_jsc (data self) (Some jsc_)) (items m) = Ok i /\
    length i = length voltage /\
    (if float_eq jsc_ 0 then parameters = ∅
     else iv_parameters self voltage i = Ok parameters) /\
    ds = {| xr.data_vars :=
              {[ "current" := {| xr.dim := "voltage"; xr.coords := voltage;
                                 xr.values := i |} ]};
            xr.attrs := parameters |}.
Proof.
  unfold solve_iv. intros Hrun.
  apply bind_ok in Hrun as (jsc_ & Hjsc & Hrun).
  apply bind_ok in Hrun as (kwargs & Hkw & Hrun).
  apply bind_ok in Hrun as (i & Hi & Hrun).
  destruct (jsc_is_array self absorption light_source);
    [unfold call_iv2diode_array_jsc in Hi; by destruct (decide _)|].
  apply bind_ok in Hrun as (current & Hcur & Hrun).
  apply bind_ok in Hrun as (parameters & Hpar & Hrun).
  injection Hrun as <-.
  destruct (options self) as [m|]; [|discriminate]. injection Hkw as <-.
  unfold xr.new in Hcur.
  destruct (Nat.eqb (length i) (length voltage)) eqn:Hlen; [|discriminate].
  injection Hcur as <-. apply Nat.eqb_eq in Hlen.
  exists jsc_, m, i, parameters. simpl in *.
  split; [by destruct (jsc (data self)) as [j|]; [injection Hjsc|] |].
  split; [done|]. split; [done|]. split; [done|]. split; [|done].
  destruct (float_eq jsc_ 0); [by injection Hpar | done].
Qed.

(** A stored short-circuit current takes precedence over the optics:
    with [data.jsc] set, [solve_iv] does not depend on the absorption
    and light source it is given. *)
Theorem solve_iv_stored_jsc_first (self : TwoDiodeJunction) (voltage : ndarray)
    (absorption absorption' : option Absorption)
    (light_source light_source' : option LightSource) (jsc_ : R) :
  jsc (data self) = Some jsc_ ->
  solve_iv self voltage absorption light_source =
  solve_iv self voltage absorption' light_source'.
Proof.
  intros Hj. unfold solve_iv.
  by rewrite !(jsc_is_array_stored _ _ _ _ Hj), Hj.
Qed.

(** The dataset [solve_iv] returns holds exactly one variable,
    'current', over the dimension 'voltage', whose coordinate is the
    voltage array of the call and which has one value per voltage. *)
Theorem solve_iv_current_shape (self : TwoDiodeJunction) (voltage : ndarray)
    (absorption : option Absorption) (light_source : option LightSource)
    (ds : xr.Dataset) :
  solve_iv self voltage absorption light_source = Ok ds ->
  exists current : xr.DataArray,
    xr.data_vars ds = {[ "current" := current ]} /\
    xr.dim current = "voltage" /\
    xr.coords current = voltage /\
    length (xr.values current) = length voltage.
Proof.
  intros Hrun.
  apply solve_iv_returns in Hrun as (jsc_ & m & i & pars & _ & _ & _ & Hlen & _ & ->).
  eexists. split; [reflexivity|]. simpl. done.
Qed.

(** The curve parameters are derived exactly when the short-circuit
    current in use is not zero: a stored [jsc] of zero leaves the
    attributes empty even when absorption and light source are given,
    and with a stored non-zero [jsc] the attributes are what
    [iv_parameters] returns for the voltages and the computed current. *)
Theorem solve_iv_parameters (self : TwoDiodeJunction) (voltage : ndarray)
    (absorption : option Absorption) (light_source : option LightSource)
    (jsc_ : R) (ds : xr.Dataset) :
  jsc (data self) = Some jsc_ ->
  solve_iv self voltage absorption light_source = Ok ds ->
  (jsc_ = 0 -> xr.attrs ds = ∅) /\
  (jsc_ <> 0 ->
   exists current : xr.DataArray,
     xr.data_vars ds !! "current" = Some current /\
     iv_parameters self voltage (xr.values current) = Ok (xr.attrs ds)).
Proof.
  intros Hj Hrun.
  apply solve_iv_returns in Hrun as (j & m & i & pars & Hres & _ & _ & _ & Hpar & ->).
  rewrite Hj in Hres. subst j. simpl. split.
  - intros ->. by rewrite float_eq_refl in Hpar.
  - intros Hne. rewrite (proj2 (float_eq_false _ _) Hne) in Hpar.
    eexists. split; [apply lookup_singleton_eq | exact Hpar].
Qed.

(** The names of the solver's own parameters are not available as
    options: a mapping that defines 'v' or 'data' makes the call of
    the solver, and so [solve_iv], raise [TypeError]. *)
Theorem solve_iv_reserved_options (self : TwoDiodeJunction) (voltage : ndarray)
    (absorption : option Absorption) (light_source : option LightSource)
    (m : Mapping) :
  options self = Some m ->
  is_Some (get "v" m) \/ is_Some (get "data" m) ->
  solve_iv self voltage absorption light_source = Raise TypeError.
Proof.
  intros Hopt Hkeys.
  unfold solve_iv, expand, call_iv2diode, call_iv2diode_array_jsc. rewrite Hopt.
  assert (exists jsc_, match jsc (data self) with
                       | Some j => Ok j
                       | None => _get_jsc self absorption light_source
                       end = Ok jsc_) as [jsc_ ->].
  { destruct (jsc (data self)) as [j|]; [eauto | apply _get_jsc_returns]. }
  run. rewrite <- !items_get in Hkeys.
  destruct (jsc_is_array self absorption light_source); by destruct (decide _).
Qed.

(** The options reach the root finder as they are.  When [solve_iv]
    returns for a junction with a series resistance, the values of
    'current' are the solution of a successful root-finder call whose
    keyword arguments answer every key as the junction's options do. *)
Theorem solve_iv_forwards_options (self : TwoDiodeJunction) (voltage : ndarray)
    (absorption : option Absorption) (light_source : option LightSource)
    (ds : xr.Dataset) :
  rs (data self) <> 0 ->
  solve_iv self voltage absorption light_source = Ok ds ->
  exists (m : Mapping) (kwargs : gmap string obj) (jsc_ : R)
         (x0 : ndarray) (sol : OptimizeResult) (current : xr.DataArray),
    options self = Some m /\
    (forall key : string, kwargs !! key = get key m) /\
    match jsc (data self) with
    | Some j => j = jsc_
    | None => _get_jsc self absorption light_source = Ok jsc_
    end /\
    root (iv2diode_fun voltage (replace_jsc (data self) (Some jsc_))) x0 kwargs
      = Ok sol /\
    success sol = true /\
    xr.data_vars ds !! "current" = Some current /\
    xr.values current = x sol.
Proof.
  intros Hrs Hrun.
  apply solve_iv_returns in Hrun
    as (jsc_ & m & i & pars & Hres & Hopt & Hi & _ & _ & ->).
  unfold call_iv2diode in Hi. destruct (decide _); [discriminate|].
  apply iv2diode_returns_solution in Hi
    as (cur & lo & hi & sol & _ & _ & _ & Hsol & Hs & ->); [|done].
  eexists m, (items m), jsc_, _, sol, _.
  split; [done|]. split; [intros key; apply items_get|].
  split; [exact Hres|]. split; [exact Hsol|]. split; [done|].
  split; [apply lookup_singleton_eq | reflexivity].
Qed.

(** ** Quantum efficiency and the derived short-circuit current *)

Lemma trapz_short (y x : ndarray) : (length x <= 1)%nat -> xr.trapz y x = 0.
Proof.
  destruct x as [|x0 [|x1 xs]]; simpl; [done | done | lia].
Qed.

Lemma trapz_nonneg (x : ndarray) :
  Sorted Rle x ->
  forall y : ndarray, Forall (Rle 0) y -> 0 <= xr.trapz y x.
Proof.
  induction 1 as [|x0 xs Hsorted IH Hhd]; intros y Hy.
  - rewrite trapz_short by (simpl; lia). lra.
  - destruct xs as [|x1 xs]; [rewrite trapz_short by (simpl; lia); lra|].
    destruct Hy as [|y0 ys Hy0 Hys]; [unfold xr.trapz, np.sum; simpl; lra|].
    destruct Hys as [|y1 ys Hy1 Hys]; [unfold xr.trapz, np.sum; simpl; lra|].
    rewrite trapz_step.
    assert (0 <= xr.trapz (y1 :: ys) (x1 :: xs)) by (apply IH; by constructor).
    inversion Hhd; subst. nra.
Qed.

(** What [_get_jsc] computes under light: the charge times the
    integral over wavelength of 'eqe' times the photon flux. *)
Lemma _get_jsc_lit (self : TwoDiodeJunction) (a : Absorption) (ls : LightSource) :
  _get_jsc self (Some a) (Some ls) =
  Ok (q * xr.trapz
            (zip_with Rmult
               (map (fun row => xr.trapz row (position a)) (absorbed a))
               (map (photon_flux_per_m ls) (wavelength a)))
            (wavelength a)).
Proof.
  unfold _get_jsc, xr.new, spectrum. rewrite length_map, Nat.eqb_refl. run.
  unfold getattr. simpl. by rewrite lookup_insert_eq.
Qed.

(** Non-negative absorbed fractions over an increasing position
    coordinate give an 'eqe' that is non-negative at every wavelength. *)
Theorem solve_qe_nonneg (self : TwoDiodeJunction) (a : Absorption)
    (light_source : option LightSource) :
  Sorted Rle (position a) ->
  Forall (Forall (Rle 0)) (absorbed a) ->
  exists (ds : xr.Dataset) (eqe : xr.DataArray),
    solve_qe self a light_source = Ok ds /\
    xr.data_vars ds !! "eqe" = Some eqe /\
    length (xr.values eqe) = length (absorbed a) /\
    Forall (Rle 0) (xr.values eqe).
Proof.
  intros Hsorted Hrows.
  eexists _, (integrate_position a). split; [reflexivity|].
  split; [reflexivity|]. simpl. split; [apply length_map|].
  apply Forall_fmap. eapply Forall_impl; [exact Hrows|].
  intros row Hrow. simpl. by apply trapz_nonneg.
Qed.

(** With at most one position sample there is nothing to integrate
    over: 'eqe' is zero at every wavelength. *)
Theorem solve_qe_single_position (self : TwoDiodeJunction) (a : Absorption)
    (light_source : option LightSource) :
  (length (position a) <= 1)%nat ->
  exists (ds : xr.Dataset) (eqe : xr.DataArray),
    solve_qe self a light_source = Ok ds /\
    xr.data_vars ds !! "eqe" = Some eqe /\
    length (xr.values eqe) = length (absorbed a) /\
    Forall (eq 0) (xr.values eqe).
Proof.
  intros Hlen.
  eexists _, (integrate_position a). split; [reflexivity|].
  split; [reflexivity|]. simpl.
  split; [apply length_map|].
  apply Forall_fmap, Forall_true. intros row. simpl.
  by rewrite trapz_short.
Qed.

(** Likewise an absorption sampled at no more than one wavelength
    yields a short-circuit current of exactly zero, however bright the
    light. *)
Theorem _get_jsc_single_wavelength (self : TwoDiodeJunction) (a : Absorption)
    (ls : LightSource) :
  (length (wavelength a) <= 1)%nat ->
  _get_jsc self (Some a) (Some ls) = Ok 0.
Proof.
  intros Hlen. rewrite _get_jsc_lit, trapz_short by done. f_equal. lra.
Qed.

(** The light path of [solve_iv] does not get through.  With nothing
    stored in [data.jsc] and both absorption and light source given,
    the short-circuit current is a 0-d [DataArray], which the solver
    cannot subtract from its array of currents: whatever the voltages,
    no dataset is returned, and with an options mapping that leaves
    'v' and 'data' alone the outcome is [ValueError]. *)
Theorem solve_iv_derived_jsc_fails (self : TwoDiodeJunction) (voltage : ndarray)
    (a : Absorption) (ls : LightSource) :
  jsc (data self) = None ->
  (forall ds : xr.Dataset,
      solve_iv self voltage (Some a) (Some ls) <> Ok ds) /\
  (forall m : Mapping,
      options self = Some m ->
      get "v" m = None -> get "data" m = None ->
      solve_iv self voltage (Some a) (Some ls) = Raise ValueError).
Proof.
  intros Hnone.
  assert (jsc_is_array self (Some a) (Some ls) = true) as Harr
    by (unfold jsc_is_array; by rewrite Hnone).
  split.
  - intros ds Hrun. unfold solve_iv in Hrun.
    apply bind_ok in Hrun as (jsc_ & _ & Hrun).
    apply bind_ok in Hrun as (kwargs & _ & Hrun).
    apply bind_ok in Hrun as (i & Hi & _).
    rewrite Harr in Hi. unfold call_iv2diode_array_jsc in Hi.
    by destruct (decide _).
  - intros m Hopt Hv Hdata.
    unfold solve_iv, expand, call_iv2diode_array_jsc.
    rewrite Harr, Hnone, Hopt, _get_jsc_lit. run.
    destruct (decide _) as [[Hkey | Hkey]|_]; [| |done].
    + rewrite items_get, Hv in Hkey. by apply is_Some_None in Hkey.
    + rewrite items_get, Hdata in Hkey. by apply is_Some_None in Hkey.
Qed.

(** Physical inputs give a physical current: a non-negative charge,
    non-negative absorbed fractions and photon flux, and increasing
    position and wavelength coordinates make the derived short-circuit
    current non-negative. *)
Theorem _get_jsc_nonneg (self : TwoDiodeJunction) (a : Absorption)
    (ls : LightSource) :
  0 <= q ->
  Sorted Rle (position a) ->
  Sorted Rle (wavelength a) ->
  Forall (Forall (Rle 0)) (absorbed a) ->
  (forall w : R, 0 <= photon_flux_per_m ls w) ->
  exists r : R, _get_jsc self (Some a) (Some ls) = Ok r /\ 0 <= r.
Proof.
  intros Hq Hpos Hwl Habs Hflux.
  eexists. split; [apply _get_jsc_lit|].
  apply Rmult_le_pos; [exact Hq|]. apply trapz_nonneg; [exact Hwl|].
  assert (Forall (Rle 0)
            (map (fun row => xr.trapz row (position a)) (absorbed a))) as Heqe.
  { apply Forall_fmap. eapply Forall_impl; [exact Habs|].
    intros row Hrow. simpl. by apply trapz_nonneg. }
  revert Heqe.
  generalize (map (fun row => xr.trapz row (position a)) (absorbed a)).
  generalize (wavelength a). clear -Hflux.
  intros wl. induction wl as [|w wl IH]; intros [|e es] Hes; simpl;
    try constructor.
  - inversion Hes; subst. by apply Rmult_le_pos.
  - inversion Hes; subst. by apply IH.
Qed.

(** ** Temperature extrapolation: trend and metadata *)

(** A warmer target means larger saturation currents: for a
    non-negative band gap, positive constants and ideality factors and
    non-negative reference currents, [j01] and [j02] do not decrease
    when the target temperature rises. *)
Theorem from_reference_monotone (band_gap Ta Tb : R) (ref : TwoDiodeData)
    (given_a opts_a given_b opts_b : option Mapping)
    (jn_a jn_b : TwoDiodeJunction) :
  0 < q -> 0 < kb -> 0 <= band_gap ->
  0 < t ref -> 0 < n1 ref -> 0 < n2 ref ->
  0 <= j01 ref -> 0 <= j02 ref ->
  0 < Ta -> Ta <= Tb ->
  from_reference band_gap Ta ref given_a opts_a = Ok jn_a ->
  from_reference band_gap Tb ref given_b opts_b = Ok jn_b ->
  j01 (data jn_a) <= j01 (data jn_b) /\
  j02 (data jn_a) <= j02 (data jn_b).
Proof.
  intros Hq Hkb Hg H0 Hn1 Hn2 Hj1 Hj2 Ha Hab Hjna Hjnb.
  apply from_reference_returns in Hjna as (_ & _ & _ & _ & ->).
  apply from_reference_returns in Hjnb as (_ & _ & _ & _ & ->). cbn -[pow].
  assert (0 < Ta / t ref <= Tb / t ref) as Hratio.
  { split; [by apply Rdiv_lt_0_compat|].
    unfold Rdiv. apply Rmult_le_compat_r; [|done].
    left. by apply Rinv_0_lt_compat. }
  assert (1 / Tb <= 1 / Ta) as Hinv.
  { unfold Rdiv. rewrite !Rmult_1_l. by apply Rinv_le_contravar. }
  assert (forall n, 0 < n ->
            exp (- q * band_gap / (n * kb) * (1 / Ta - 1 / t ref)) <=
            exp (- q * band_gap / (n * kb) * (1 / Tb - 1 / t ref))) as Hexp.
  { intros n Hn.
    assert (0 <= q * band_gap / (n * kb)) as Hc.
    { apply Rmult_le_pos; [by apply Rmult_le_pos; lra|].
      left. apply Rinv_0_lt_compat. by apply Rmult_lt_0_compat. }
    assert (- q * band_gap / (n * kb) * (1 / Ta - 1 / t ref) <=
            - q * band_gap / (n * kb) * (1 / Tb - 1 / t ref)) as [Hlt | ->].
    { replace (- q * band_gap / (n * kb)) with (- (q * band_gap / (n * kb)))
        by (unfold Rdiv; ring).
      nra. }
    - left. by apply exp_increasing.
    - lra. }
  assert (forall j pa pb ea eb,
            0 <= j -> 0 <= pa <= pb -> 0 < ea <= eb ->
            j * pa * ea <= j * pb * eb) as Hprod.
  { intros j pa pb ea eb Hj [Hpa Hpab] [Hea Heab].
    apply Rmult_le_compat; [by apply Rmult_le_pos | lra | | done].
    by apply Rmult_le_compat_l. }
  split; apply Hprod; try done.
  - split; [apply pow_le; lra | apply pow_incr; lra].
  - split; [apply exp_pos | by apply Hexp].
  - split; [unfold Rpower; left; apply exp_pos | apply Rle_Rpower_l; lra].
  - split; [apply exp_pos | by apply Hexp].
Qed.

(** The metadata of a junction derived twice names the latest
    reference: 't_ref' resolves to the temperature of the intermediate
    parameter set and 'band_gap' to the band gap of the second call,
    while any other key still resolves as in the first caller's
    mapping. *)
Theorem from_reference_twice_metadata (gap1 gap2 T1 T2 : R) (ref : TwoDiodeData)
    (given opts1 opts2 : option Mapping) (jn1 jn2 : TwoDiodeJunction) :
  from_reference gap1 T1 ref given opts1 = Ok jn1 ->
  from_reference gap2 T2 (data jn1) (params jn1) opts2 = Ok jn2 ->
  exists m : Mapping,
    params jn2 = Some m /\
    get "band_gap" m = Some (Float gap2) /\
    get "t_ref" m = Some (Float T1) /\
    forall key : string,
      key <> "band_gap" -> key <> "t_ref" ->
      get key m = match given with Some p => get key p | None => None end.
Proof.
  intros Hjn1 Hjn2.
  apply from_reference_returns in Hjn1 as (_ & _ & _ & _ & ->).
  apply from_reference_returns in Hjn2 as (_ & _ & _ & _ & ->).
  eexists. split; [reflexivity|]. simpl.
  split; [by rewrite lookup_insert_eq|].
  split; [rewrite lookup_insert_ne by done; by rewrite lookup_singleton_eq|].
  intros key Hb Ht.
  rewrite !lookup_insert_ne by done. rewrite !lookup_singleton_ne by done.
  destruct given as [p|]; simpl.
  - by destruct (get key p).
  - by rewrite lookup_empty.
Qed.
End Further.

(** * The further properties on sample inputs *)

Lemma SI_q_positive : 0 < q.
Proof. simpl. lra. Qed.

Lemma SI_kb_positive : 0 < kb.
Proof. simpl. lra. Qed.

(** ** The solver *)

(** The default parameters have no [jsc]: one sample is enough to
    make both functions raise. *)
Lemma iv2diode_without_jsc_witness :
  iv_no_rs [0] TwoDiodeData_default = Raise TypeError /\
  iv2diode [0] TwoDiodeData_default ∅ = Raise TypeError.
Proof.
  apply (iv2diode_without_jsc [0] TwoDiodeData_default ∅); [reflexivity | done].
Defined.

(** The ohmic cell on no voltages at all. *)
Lemma iv2diode_empty_voltage_witness :
  iv2diode [] ohmic_cell ∅ = Raise ValueError.
Proof.
  assert (rs ohmic_cell <> 0) as Hrs by (simpl; lra).
  exact (iv2diode_empty_voltage ohmic_cell ∅ 0 Hrs eq_refl stay_put).
Defined.

(** The ohmic cell at 0 V and 1 V: the starting point has two
    components, both within [[min / rs, max / rs]]. *)
Lemma iv2diode_start_in_range_witness :
  let jguess :=
    np.clip (map (two_diode_equation ohmic_cell 0) [0; 1])
            (Rmin 0 1 / rs ohmic_cell) (Rmax 0 1 / rs ohmic_cell) in
  length jguess = 2%nat /\
  Forall (fun jk => Rmin 0 1 / rs ohmic_cell <= jk <= Rmax 0 1 / rs ohmic_cell)
         jguess.
Proof.
  assert (0 < rs ohmic_cell) as Hrs by (simpl; lra).
  destruct (iv2diode_start_in_range [0; 1] ohmic_cell ∅
              (map (two_diode_equation ohmic_cell 0) [0; 1])
              (Rmin 0 1) (Rmax 0 1) Hrs eq_refl eq_refl eq_refl)
    as (_ & Hlen & _ & Hin).
  split; [exact Hlen | exact Hin].
Defined.

(** The ohmic cell at 0 V returns; so the root finder was asked and
    flagged its answer a success. *)
Lemma iv2diode_only_converged_witness :
  exists (x0 : ndarray) (sol : OptimizeResult),
    root (iv2diode_fun [0] ohmic_cell) x0 ∅ = Ok sol /\
    success sol = true /\
    [0] = x sol.
Proof.
  assert (rs ohmic_cell <> 0) as Hrs by (simpl; lra).
  destruct (iv2diode_only_converged [0] ohmic_cell ∅ [0] Hrs ohmic_run_at_zero)
    as (_ & _ & x0 & sol & _ & Hroot & Hs & Hx).
  exists x0, sol. split; [exact Hroot|]. split; [exact Hs | exact Hx].
Defined.

(** The lit cell: its first sample is 0 V, where the current is
    minus 0.03 A. *)
Lemma iv2diode_at_zero_volts_witness :
  exists current : ndarray,
    iv2diode [0; 0.4] lit_cell ∅ = Ok current /\
    current !! 0%nat = Some (- (0.03)).
Proof.
  apply (iv2diode_at_zero_volts [0; 0.4] lit_cell ∅ 0.03 0%nat);
    try reflexivity; try exact SI_kb_nonzero; simpl; lra.
Defined.

(** The lit cell: the current at 0.4 V is not below the one at 0 V. *)
Lemma iv2diode_monotone_witness :
  exists (current : ndarray) (ca cb : R),
    iv2diode [0; 0.4] lit_cell ∅ = Ok current /\
    current !! 0%nat = Some ca /\
    current !! 1%nat = Some cb /\
    ca <= cb.
Proof.
  apply (iv2diode_monotone [0; 0.4] lit_cell ∅ 0.03 0%nat 1%nat 0 0.4);
    try reflexivity; try exact SI_q_positive; try exact SI_kb_positive;
    simpl; lra.
Defined.

(** ** The facade *)

Lemma lit_junction_runs :
  exists ds : xr.Dataset, solve_iv lit_junction [0] None None = Ok ds.
Proof. destruct solve_iv_lit as (ds & _ & Hrun & _). eauto. Qed.

Lemma ohmic_junction_runs :
  exists ds : xr.Dataset, solve_iv ohmic_junction [0] None None = Ok ds.
Proof.
  unfold solve_iv, expand, call_iv2diode. simpl jsc. simpl options. run.
  destruct (decide _) as [[Hkey | Hkey]|_];
    [by apply is_Some_None in Hkey | by apply is_Some_None in Hkey |].
  change (replace_jsc ohmic_cell (Some 0)) with ohmic_cell.
  rewrite ohmic_run_at_zero. simpl. rewrite float_eq_refl. eauto.
Qed.

(** The lit junction stores [jsc = 0.03]: absorption and light source
    make no difference. *)
Lemma solve_iv_stored_jsc_first_witness :
  solve_iv lit_junction [0] (Some half_absorber) (Some (flat_light 1e18)) =
  solve_iv lit_junction [0] None None.
Proof.
  exact (solve_iv_stored_jsc_first lit_junction [0]
           (Some half_absorber) None (Some (flat_light 1e18)) None 0.03 eq_refl).
Defined.

(** The dataset of the lit junction at one voltage. *)
Lemma solve_iv_current_shape_witness :
  exists (ds : xr.Dataset) (current : xr.DataArray),
    solve_iv lit_junction [0] None None = Ok ds /\
    xr.data_vars ds = {[ "current" := current ]} /\
    xr.coords current = [0] /\
    length (xr.values current) = 1%nat.
Proof.
  destruct lit_junction_runs as [ds Hrun].
  destruct (solve_iv_current_shape lit_junction [0] None None ds Hrun)
    as (current & Hvars & _ & Hcoords & Hlen).
  exists ds, current. split; [exact Hrun|]. split; [exact Hvars|].
  split; [exact Hcoords | exact Hlen].
Defined.

(** The lit junction has a non-zero [jsc]: its attributes are the
    parameters of the base class. *)
Lemma solve_iv_parameters_witness :
  exists (ds : xr.Dataset) (current : xr.DataArray),
    solve_iv lit_junction [0] None None = Ok ds /\
    xr.data_vars ds !! "current" = Some current /\
    iv_parameters lit_junction [0] (xr.values current) = Ok (xr.attrs ds).
Proof.
  destruct lit_junction_runs as [ds Hrun].
  assert (0.03 <> 0) as Hlit by lra.
  destruct (proj2 (solve_iv_parameters lit_junction [0] None None 0.03 ds
                     eq_refl Hrun) Hlit) as (current & Hcur & Hpar).
  exists ds, current. split; [exact Hrun|]. split; [exact Hcur | exact Hpar].
Defined.

(** Options that define 'v' collide with the solver's parameter. *)
Lemma solve_iv_reserved_options_witness :
  solve_iv shadowing_junction [0] None None = Raise TypeError.
Proof.
  apply (solve_iv_reserved_options shadowing_junction [0] None None
           (Dict {[ "v" := Float 1 ]}) eq_refl).
  left. simpl. rewrite lookup_singleton_eq. by eexists.
Defined.

(** The ohmic junction at 0 V: the values of 'current' are the
    solution of a successful root-finder call. *)
Lemma solve_iv_forwards_options_witness :
  exists (ds : xr.Dataset) (kwargs : gmap string obj) (x0 : ndarray)
         (sol : OptimizeResult) (current : xr.DataArray),
    solve_iv ohmic_junction [0] None None = Ok ds /\
    root (iv2diode_fun [0] ohmic_cell) x0 kwargs = Ok sol /\
    success sol = true /\
    xr.data_vars ds !! "current" = Some current /\
    xr.values current = x sol.
Proof.
  destruct ohmic_junction_runs as [ds Hrun].
  assert (rs (data ohmic_junction) <> 0) as Hrs by (simpl; lra).
  destruct (solve_iv_forwards_options ohmic_junction [0] None None ds Hrs Hrun)
    as (m & kwargs & jsc_ & x0 & sol & current & _ & _ & Hres & Hroot & Hs
        & Hcur & Hx).
  simpl in Hres. subst jsc_.
  exists ds, kwargs, x0, sol, current.
  split; [exact Hrun|]. split; [exact Hroot|]. split; [exact Hs|].
  split; [exact Hcur | exact Hx].
Defined.

(** ** Quantum efficiency and the derived current *)

Lemma half_absorber_sorted :
  Sorted Rle (position half_absorber) /\ Sorted Rle (wavelength half_absorber).
Proof. split; simpl; repeat constructor; lra. Qed.

(** The half absorber: 'eqe' is non-negative at both wavelengths. *)
Lemma solve_qe_nonneg_witness :
  exists (ds : xr.Dataset) (eqe : xr.DataArray),
    solve_qe dark_junction half_absorber None = Ok ds /\
    xr.data_vars ds !! "eqe" = Some eqe /\
    length (xr.values eqe) = 2%nat /\
    Forall (Rle 0) (xr.values eqe).
Proof.
  apply (solve_qe_nonneg dark_junction half_absorber None
           (proj1 half_absorber_sorted)).
  simpl. repeat constructor; lra.
Defined.

(** One position sample: 'eqe' is zero at both wavelengths. *)
Lemma solve_qe_single_position_witness :
  exists (ds : xr.Dataset) (eqe : xr.DataArray),
    solve_qe dark_junction one_layer None = Ok ds /\
    xr.data_vars ds !! "eqe" = Some eqe /\
    length (xr.values eqe) = 2%nat /\
    Forall (eq 0) (xr.values eqe).
Proof.
  apply (solve_qe_single_position dark_junction one_layer None). simpl. lia.
Defined.

(** One wavelength sample: the derived current is zero, however bright
    the light. *)
Lemma _get_jsc_single_wavelength_witness :
  _get_jsc dark_junction (Some one_colour) (Some (flat_light 1e18)) = Ok 0.
Proof.
  apply (_get_jsc_single_wavelength dark_junction one_colour (flat_light 1e18)).
  simpl. lia.
Defined.

(** The default junction with an empty options mapping, under light:
    no stored current, so the light path ends in [ValueError]. *)
Lemma solve_iv_derived_jsc_fails_witness :
  solve_iv dark_junction [0; 0.4] (Some half_absorber) (Some (flat_light 1e18))
    = Raise ValueError.
Proof.
  apply (proj2 (solve_iv_derived_jsc_fails dark_junction [0; 0.4] half_absorber
                  (flat_light 1e18) eq_refl) (Dict ∅));
    reflexivity.
Defined.

(** The half absorber under a flat light gives a non-negative current. *)
Lemma _get_jsc_nonneg_witness :
  exists r : R,
    _get_jsc dark_junction (Some half_absorber) (Some (flat_light 1e18)) = Ok r /\
    0 <= r.
Proof.
  apply (_get_jsc_nonneg dark_junction half_absorber (flat_light 1e18)).
  - left. exact SI_q_positive.
  - exact (proj1 half_absorber_sorted).
  - exact (proj2 half_absorber_sorted).
  - simpl. repeat constructor; lra.
  - intros w. simpl. lra.
Defined.

(** ** Temperature extrapolation *)

Lemma default_extrapolates (band_gap T : R) (given opts : option Mapping) :
  T <> 0 ->
  exists jn : TwoDiodeJunction,
    from_reference band_gap T TwoDiodeData_default given opts = Ok jn.
Proof.
  intros HT. apply from_reference_defined; simpl; try lra.
  all: apply Rmult_integral_contrapositive; split; lra.
Qed.

(** The defaults at 320 K against 350 K. *)
Lemma from_reference_monotone_witness :
  exists jn_a jn_b : TwoDiodeJunction,
    from_reference 1.42 320 TwoDiodeData_default None None = Ok jn_a /\
    from_reference 1.42 350 TwoDiodeData_default None None = Ok jn_b /\
    j01 (data jn_a) <= j01 (data jn_b) /\
    j02 (data jn_a) <= j02 (data jn_b).
Proof.
  destruct (default_extrapolates 1.42 320 None None) as [jn_a Hjna]; [lra|].
  destruct (default_extrapolates 1.42 350 None None) as [jn_b Hjnb]; [lra|].
  exists jn_a, jn_b. split; [exact Hjna|]. split; [exact Hjnb|].
  apply (from_reference_monotone 1.42 320 350 TwoDiodeData_default
           None None None None jn_a jn_b);
    try assumption; try exact SI_q_positive; try exact SI_kb_positive;
    simpl; lra.
Defined.

(** Two derivations in a row, the second fed with the metadata of the
    first: 't_ref' is the intermediate 320 K. *)
Lemma from_reference_twice_metadata_witness :
  exists (jn1 jn2 : TwoDiodeJunction) (m : Mapping),
    from_reference 1.42 320 TwoDiodeData_default
      (Some (Dict {[ "width" := Float 1e-6 ]})) None = Ok jn1 /\
    from_reference 1.42 350 (data jn1) (params jn1) None = Ok jn2 /\
    params jn2 = Some m /\
    get "t_ref" m = Some (Float 320) /\
    get "width" m = Some (Float 1e-6).
Proof.
  destruct (default_extrapolates 1.42 320
              (Some (Dict {[ "width" := Float 1e-6 ]})) None) as [jn1 Hjn1]; [lra|].
  assert (exists jn2, from_reference 1.42 350 (data jn1) (params jn1) None = Ok jn2)
    as [jn2 Hjn2].
  { pose proof Hjn1 as Hshape.
    apply from_reference_returns in Hshape as (_ & HT1 & Hn1 & Hn2 & ->).
    by apply from_reference_defined. }
  destruct (from_reference_twice_metadata 1.42 1.42 320 350 TwoDiodeData_default
              _ None None jn1 jn2 Hjn1 Hjn2) as (m & Hm & _ & Ht & Hother).
  exists jn1, jn2, m. split; [exact Hjn1|]. split; [exact Hjn2|].
  split; [exact Hm|]. split; [exact Ht|].
  rewrite (Hother "width") by done. reflexivity.
Defined.
